(** * Weekly streak service: calculator, paginated fetcher, streak bar

    A shallow embedding of the three core functions of [src/main.py]

      - [calculate_weekly_streak]   (lines 62-89)
      - [fetch_workouts_for_streak] (lines 94-126)
      - [generate_streak_bar]       (lines 183-187)

    together with the parts of Python's [datetime] module they call.

    Conventions.
      - Python [int] is [Z]; a [date] is its proleptic Gregorian ordinal
        ([date.toordinal()], 0001-01-01 is day 1), which is in bijection
        with the (year, month, day) triple Python stores.
      - A Python [set] of tuples is a [gset (Z * Z)], a [dict] with string
        keys is a [gmap string pyval].
      - Exceptions are values of [exn]; code that can raise returns a
        [result].  Code that reads the clock or talks to the server runs
        in the monad [M] over a [World]; the two [while] loops take a
        bound on their number of iterations and yield [None] when the
        bound is used up. *)

From Stdlib Require Import PrimFloat.
From stdpp Require Import gmap strings list sorting pretty.

Local Open Scope Z_scope.

(** ** Values *)

(** The JSON values a field of a workout record can hold.  The code never
    looks inside arrays and nested objects, so they carry no contents. *)
Inductive pyval :=
| VNone
| VBool (b : bool)
| VInt (z : Z)
| VFloat (f : float)
| VStr (s : string)
| VList
| VObject.

(** One element of the workout list: a [dict], or any other JSON value
    (which the code only ever tests with [isinstance(w, dict)] or calls
    [.get] on). *)
Inductive workout :=
| WDict (fields : gmap string pyval)
| WNotDict.

(** The exceptions the modelled code can raise.  [ValueError] also stands
    for the [OSError] that [gmtime] reports on timestamps far outside the
    supported years. *)
Inductive exn :=
| AttributeError
| TypeError
| ValueError
| OverflowError
| HTTPException (status_code : Z) (detail : string).

Inductive result (A : Type) :=
| Ok (a : A)
| Raise (e : exn).
Arguments Ok {A} a.
Arguments Raise {A} e.

Definition rbind {A B} (r : result A) (k : A -> result B) : result B :=
  match r with
  | Ok a => k a
  | Raise e => Raise e
  end.

Declare Scope py_scope.
Delimit Scope py_scope with py.
Notation "'try' x := r 'in' k" := (rbind r (fun x => k))
  (at level 10, x name, r at level 100, k at level 200) : py_scope.
Local Open Scope py_scope.

(** ** The [datetime] module *)

Module datetime.

Definition MAXORDINAL : Z := 3652059.
Definition EPOCH_ORDINAL : Z := 719163.

(** [_days_before_year]: days before January 1st of [year]. *)
Definition days_before_year (year : Z) : Z :=
  let y := year - 1 in
  y * 365 + y / 4 - y / 100 + y / 400.

(** [_ymd2ord(year, 1, 1)] *)
Definition ymd2ord_jan1 (year : Z) : Z := days_before_year year + 1.

(** The year component of [_ord2ymd]. *)
Definition ord2year (n : Z) : Z :=
  let n := n - 1 in
  let n400 := n / 146097 in
  let n := n mod 146097 in
  let year := n400 * 400 + 1 in
  let n100 := n / 36524 in
  let n := n mod 36524 in
  let n4 := n / 1461 in
  let n := n mod 1461 in
  let n1 := n / 365 in
  let year := year + n100 * 100 + n4 * 4 + n1 in
  if (n1 =? 4) || (n100 =? 4) then year - 1 else year.

(** [_isoweek1monday]: ordinal of the Monday starting ISO week 1. *)
Definition isoweek1monday (year : Z) : Z :=
  let firstday := ymd2ord_jan1 year in
  let firstweekday := (firstday + 6) mod 7 in
  let week1monday := firstday - firstweekday in
  if 3 <? firstweekday then week1monday + 7 else week1monday.

(** [date.isocalendar()]: (ISO year, ISO week, ISO weekday). *)
Definition isocalendar (today : Z) : Z * Z * Z :=
  let year := ord2year today in
  let week1monday := isoweek1monday year in
  let week := (today - week1monday) / 7 in
  let day := (today - week1monday) mod 7 in
  if week <? 0 then
    let year := year - 1 in
    let week1monday := isoweek1monday year in
    (year, (today - week1monday) / 7 + 1, (today - week1monday) mod 7 + 1)
  else if (52 <=? week) && (isoweek1monday (year + 1) <=? today) then
    (year + 1, 1, day + 1)
  else
    (year, week + 1, day + 1).

(** [datetime.utcfromtimestamp(t).date()] once [t] has been converted to
    a whole number of seconds: the value must fit the platform's
    [time_t], and the resulting year must lie in 1..9999. *)
Definition date_of_timet (timet : Z) : result Z :=
  if (timet <? - 2 ^ 63) || (2 ^ 63 <=? timet) then Raise OverflowError
  else
    let ord := EPOCH_ORDINAL + timet / 86400 in
    if (1 <=? ord) && (ord <=? MAXORDINAL) then Ok ord else Raise ValueError.

(** [d - timedelta(days=i)]: [timedelta] rejects more than 999999999
    days, and the difference must again be a date. *)
Definition sub_days (d i : Z) : result Z :=
  if 999999999 <? Z.abs i then Raise OverflowError
  else
    let o := d - i in
    if (0 <? o) && (o <=? MAXORDINAL) then Ok o else Raise OverflowError.

End datetime.

(** [isinstance(v, int)]: [bool] is a subclass of [int] in Python, with
    [True == 1] and [False == 0]. *)
Definition as_int (v : pyval) : option Z :=
  match v with
  | VInt z => Some z
  | VBool b => Some (Z.b2z b)
  | _ => None
  end.

(** [d.get(key)]: the value, or [None] when the key is absent. *)
Definition dict_get (d : gmap string pyval) (key : string) : pyval :=
  default VNone (d !! key).

(** ** The world: wall clock and remote listing *)

(** One HTTP response of the workout listing: its status code and the
    list found under ["data"] in its JSON body ([[]] when the key is
    absent). *)
Record response := { status_code : Z; data : list workout }.

(** [utc_dates n] is the UTC date the wall clock shows the [n]-th time it
    is read, [clock_reads] the number of readings so far, and [pages p]
    the server's answer to the request for page [p]. *)
Record World := {
  utc_dates : nat -> Z;
  clock_reads : nat;
  pages : nat -> response
}.

Definition M (A : Type) : Type := World -> option (result A * World).

Definition ret {A} (a : A) : M A := fun w => Some (Ok a, w).
Definition raise {A} (e : exn) : M A := fun w => Some (Raise e, w).
Definition out_of_fuel {A} : M A := fun _ => None.
Definition lift {A} (r : result A) : M A := fun w => Some (r, w).
Definition bind {A B} (m : M A) (k : A -> M B) : M B :=
  fun w =>
    match m w with
    | Some (Ok a, w') => k a w'
    | Some (Raise e, w') => Some (Raise e, w')
    | None => None
    end.

Notation "'do' x := m 'in' k" := (bind m (fun x => k))
  (at level 10, x name, m at level 100, k at level 200) : py_scope.

(** [datetime.utcnow().date()] *)
(** The date the next reading of the clock shows. *)
Definition next_today (w : World) : Z := utc_dates w (clock_reads w).

Definition tick (w : World) : World :=
  {| utc_dates := utc_dates w;
     clock_reads := S (clock_reads w);
     pages := pages w |}.

Definition utcnow_date : M Z :=
  fun w => Some (Ok (next_today w), tick w).

(** [await client.get(.../workouts, params={"limit": 100, "page": page})] *)
Definition client_get (page : nat) : M response :=
  fun w => Some (Ok (pages w page), w).

(** ** Weekly streak calculator (lines 62-89) *)

(** Body of the [for w in workouts] loop, lines 66-70. *)
Definition add_workout_week (weeks_with_workouts : gset (Z * Z)) (w : workout)
  : result (gset (Z * Z)) :=
  match w with
  | WNotDict => Raise AttributeError
  | WDict fields =>
      let ts := dict_get fields "start_time" in
      match as_int ts with
      | Some ts =>
          try workout_date := datetime.date_of_timet ts in
          let '(year, week_num, _) := datetime.isocalendar workout_date in
          Ok ({[ (year, week_num) ]} ∪ weeks_with_workouts)
      | None => Ok weeks_with_workouts
      end
  end.

(** The [for] loop of lines 65-70. *)
Fixpoint collect_weeks (workouts : list workout) (weeks_with_workouts : gset (Z * Z))
  : result (gset (Z * Z)) :=
  match workouts with
  | [] => Ok weeks_with_workouts
  | w :: rest =>
      try weeks := add_workout_week weeks_with_workouts w in
      collect_weeks rest weeks
  end.

(** The (ISO year, ISO week) pair of a date, as lines 69 and 76 take it
    from [isocalendar()]. *)
Definition iso_week (d : Z) : Z * Z :=
  let '(year, week_num, _) := datetime.isocalendar d in (year, week_num).

(** What lines 66-69 make of one record: an exception, nothing (the
    record is skipped), or the week of its start time. *)
Definition workout_week (w : workout) : result (option (Z * Z)) :=
  match w with
  | WNotDict => Raise AttributeError
  | WDict fields =>
      match as_int (dict_get fields "start_time") with
      | Some ts =>
          try workout_date := datetime.date_of_timet ts in
          Ok (Some (iso_week workout_date))
      | None => Ok None
      end
  end.

(** The active-weeks set that lines 65-70 build from [workouts] is not
    empty: the test of line 72 fails and line 75 is reached. *)
Definition active_weeks_nonempty (workouts : list workout) : Prop :=
  ∃ weeks, collect_weeks workouts ∅ = Ok weeks ∧ weeks ≠ ∅.

(** Lines 83-87: the step back from week [(y, w)]. *)
Definition step_back (yw : Z * Z) : Z * Z :=
  let '(y, w) := yw in
  if w =? 1 then (y - 1, 52) else (y, w - 1).

(** The pair reached after [k] steps back. *)
Definition back (k : nat) (yw : Z * Z) : Z * Z := Nat.iter k step_back yw.

(** Lexicographic order on (year, week) pairs. *)
Definition week_lt (yw1 yw2 : Z * Z) : Prop :=
  yw1.1 < yw2.1 ∨ (yw1.1 = yw2.1 ∧ yw1.2 < yw2.2).

(** The [while] loop of lines 81-87, run for at most [fuel] tests of its
    condition. *)
Fixpoint streak_loop (fuel : nat) (weeks_with_workouts : gset (Z * Z))
    (yw : Z * Z) (streak : Z) : option Z :=
  match fuel with
  | O => None
  | S fuel =>
      if decide (yw ∈ weeks_with_workouts)
      then streak_loop fuel weeks_with_workouts (step_back yw) (streak + 1)
      else Some streak
  end.

Definition run_loop {A} (o : option A) : M A :=
  match o with
  | Some a => ret a
  | None => out_of_fuel
  end.

Definition calculate_weekly_streak (fuel : nat) (workouts : list workout) : M Z :=
  do weeks_with_workouts := lift (collect_weeks workouts ∅) in
  if decide (weeks_with_workouts = ∅) then ret 0
  else
    do today := utcnow_date in
    let '(current_year, current_week, _) := datetime.isocalendar today in
    run_loop (streak_loop fuel weeks_with_workouts (current_year, current_week) 0).

(** ** Bounded paginated fetcher (lines 94-126) *)

(** The f-string of line 106. *)
Definition fetch_failure_detail (page : nat) : string :=
  "Failed to fetch workouts on page " +:+ pretty page.

(** The world after [k] readings of the clock. *)
Definition ticks (k : nat) (w : World) : World := Nat.iter k tick w.

(** The date the clock shows at its [k]-th reading from now. *)
Definition today_at (w : World) (k : nat) : Z :=
  utc_dates w (clock_reads w + k)%nat.

(** The records of pages [0 .. p - 1], in order. *)
Fixpoint pages_upto (w : World) (p : nat) : list workout :=
  match p with
  | O => []
  | S p => pages_upto w p ++ data (pages w p)
  end.

(** [date.min <= d <= date.max] *)
Definition valid_date (d : Z) : Prop := 1 ≤ d ≤ datetime.MAXORDINAL.

(** The clock only ever shows dates. *)
Definition valid_clock (w : World) : Prop := ∀ n, valid_date (utc_dates w n).

(** The [i]-th most recent date is [today] minus [i] days, for every
    [i]: the day-by-day coverage has no gap. *)
Definition no_gap (today : Z) (dates : list Z) : Prop :=
  ∀ (i : nat) d, dates !! i = Some d → d = today - Z.of_nat i.

Section Fetcher.

(** [datetime.utcfromtimestamp] rounds a float timestamp to whole
    seconds and microseconds (round-half-even) and raises on NaN and on
    values outside [time_t].  That rounding is floating-point arithmetic;
    the development is parametric in it. *)
Variable float_to_timet : float -> result Z.

(** [datetime.utcfromtimestamp(v).date()] for an arbitrary field value:
    anything that is neither an [int] nor a [float] is a [TypeError]. *)
Definition utcfromtimestamp_date (v : pyval) : result Z :=
  match v with
  | VInt z => datetime.date_of_timet z
  | VBool b => datetime.date_of_timet (Z.b2z b)
  | VFloat f => try timet := float_to_timet f in datetime.date_of_timet timet
  | VNone | VStr _ | VList | VObject => Raise TypeError
  end.

(** The set comprehension of lines 114-117: the filter is
    [isinstance(w, dict) and "start_time" in w]. *)
Fixpoint collect_dates (workouts : list workout) (dates : gset Z) : result (gset Z) :=
  match workouts with
  | [] => Ok dates
  | WDict fields :: rest =>
      match fields !! "start_time" with
      | Some v =>
          try d := utcfromtimestamp_date v in
          collect_dates rest ({[ d ]} ∪ dates)
      | None => collect_dates rest dates
      end
  | WNotDict :: rest => collect_dates rest dates
  end.

(** [sorted(s, reverse=True)] *)
Definition sorted_desc (s : gset Z) : list Z :=
  merge_sort (flip Z.le) (elements s).

Definition workout_dates (workouts : list workout) : result (list Z) :=
  try s := collect_dates workouts ∅ in Ok (sorted_desc s).

(** The [for i, d in enumerate(dates)] loop of lines 120-122, entered at
    index [i]; [Ok true] is the [return workouts] inside it. *)
Fixpoint gap_loop (today : Z) (i : nat) (dates : list Z) : result bool :=
  match dates with
  | [] => Ok false
  | d :: rest =>
      try expected := datetime.sub_days today (Z.of_nat i) in
      if d =? expected then gap_loop today (S i) rest else Ok true
  end.

(** The [while True] loop of lines 100-124, run for at most [fuel]
    page requests.  The session cookies and the user id only select
    which listing [pages] stands for. *)
Fixpoint fetch_loop (fuel : nat) (workouts : list workout) (page : nat)
  : M (list workout) :=
  match fuel with
  | O => out_of_fuel
  | S fuel =>
      do res := client_get page in
      if negb (status_code res =? 200) then
        raise (HTTPException 500 (fetch_failure_detail page))
      else
        match data res with
        | [] => ret workouts
        | _ :: _ =>
            let workouts := workouts ++ data res in
            do dates := lift (workout_dates workouts) in
            do today := utcnow_date in
            do gap := lift (gap_loop today 0 dates) in
            if gap then ret workouts
            else fetch_loop fuel workouts (S page)
        end
  end.

Definition fetch_workouts_for_streak (fuel : nat) : M (list workout) :=
  fetch_loop fuel [] 0%nat.

(** Page [q] is fetched successfully, is not empty, and the dates of
    the records gathered up to and including it show no gap: the loop
    goes on to page [q + 1]. *)
Definition page_continues (w : World) (q : nat) : Prop :=
  status_code (pages w q) = 200 ∧
  data (pages w q) ≠ [] ∧
  ∃ dates, workout_dates (pages_upto w (S q)) = Ok dates ∧
           no_gap (today_at w q) dates.

(** The loop returns [ws] in the iteration for page [p]: the page is
    fetched successfully and either is empty, [ws] being the records
    gathered before it, or it is appended and some date of the records
    gathered so far is not where the day-by-day sequence expects it,
    [ws] being all the records including this page's. *)
Definition page_returns (w : World) (p : nat) (ws : list workout) : Prop :=
  status_code (pages w p) = 200 ∧
  ((data (pages w p) = [] ∧ ws = pages_upto w p) ∨
   (data (pages w p) ≠ [] ∧ ws = pages_upto w (S p) ∧
    ∃ dates, workout_dates (pages_upto w (S p)) = Ok dates ∧
             ∃ (i : nat) d, dates !! i = Some d ∧
                            d ≠ today_at w p - Z.of_nat i)).

End Fetcher.

(** ** Streak bar renderer (lines 183-187) *)

Fixpoint str_repeat (s : string) (n : nat) : string :=
  match n with
  | O => ""
  | S n => s +:+ str_repeat s n
  end.

(** [s * n] on a [str]: empty when [n] is not positive. *)
Definition str_mul (s : string) (n : Z) : string := str_repeat s (Z.to_nat n).

Definition generate_streak_bar (weeks max_units : Z) : string :=
  if weeks <=? max_units then str_mul "●" weeks
  else str_mul "●" max_units +:+ " +" +:+ pretty (weeks - max_units).

(** The default of the keyword argument [max_units]. *)
Definition default_max_units : Z := 20.

(** The renderer in the specification's words: one marker per week up to
    the maximum, then, when the streak exceeds the maximum, the excess
    count behind a plus sign. *)
Definition streak_bar_spec (streak max_units : Z) : string :=
  str_repeat "●" (Z.to_nat (Z.min streak max_units))
  +:+ (if max_units <? streak then " +" +:+ pretty (streak - max_units) else "").

(** ** Login and request handler (lines 16-41 and 138-177) *)

(** Responses are modelled after decoding: a status code and the outcome
    of the one expression the handler evaluates on the JSON body.  What
    the handler prints (lines 37-38, 175-176) is not modelled. *)

(** Exceptions inside the handler: those of the functions above, and the
    [KeyError] of a missing [dict] key. *)
Inductive hexn :=
| Core (e : exn)
| KeyError (key : string).

Inductive hresult (A : Type) :=
| HOk (a : A)
| HRaise (e : hexn).
Arguments HOk {A} a.
Arguments HRaise {A} e.

Definition hrbind {A B} (r : hresult A) (k : A -> hresult B) : hresult B :=
  match r with
  | HOk a => k a
  | HRaise e => HRaise e
  end.

Notation "'htry' x := r 'in' k" := (hrbind r (fun x => k))
  (at level 10, x name, r at level 100, k at level 200) : py_scope.

(** [result] as an [hresult]. *)
Definition of_core {A} (r : result A) : hresult A :=
  match r with
  | Ok a => HOk a
  | Raise e => HRaise (Core e)
  end.

(** The remote service as one request sees it: the status of the login
    request for given credentials, the status of [/api/me] and the
    outcome of [me_res.json()["id"]], the status of the profile request
    and the outcome of [profile_res.json().get("total_workouts")].  The
    workout listing is [pages] of the [World]. *)
Record Remote := {
  login_status : string -> string -> Z;
  me_status : Z;
  me_id : hresult pyval;
  profile_status : Z;
  profile_total_workouts : hresult pyval
}.

(** The handler's computations: as [M], with the handler's exceptions. *)
Definition HM (A : Type) : Type := World -> option (hresult A * World).

Definition hret {A} (a : A) : HM A := fun w => Some (HOk a, w).
Definition hraise {A} (e : hexn) : HM A := fun w => Some (HRaise e, w).
Definition hlift {A} (r : hresult A) : HM A := fun w => Some (r, w).
Definition hbind {A B} (m : HM A) (k : A -> HM B) : HM B :=
  fun w =>
    match m w with
    | Some (HOk a, w') => k a w'
    | Some (HRaise e, w') => Some (HRaise e, w')
    | None => None
    end.

Notation "'hdo' x := m 'in' k" := (hbind m (fun x => k))
  (at level 10, x name, m at level 100, k at level 200) : py_scope.

(** A call of one of the functions above from the handler. *)
Definition call {A} (m : M A) : HM A :=
  fun w =>
    match m w with
    | Some (r, w') => Some (of_core r, w')
    | None => None
    end.

(** [httpx.Cookies]: an opaque session handle. *)
Inductive Cookies := SessionCookies.

(** [peloton_login], lines 16-41. *)
Definition peloton_login (remote : Remote) (username password : string) : HM Cookies :=
  if negb (login_status remote username password =? 200) then
    hraise (Core (HTTPException 500 "Peloton login failed"))
  else hret SessionCookies.

(** The request body, [class Credentials]. *)
Record Credentials := { username : string; password : string }.

(** The [dict] the handler returns. *)
Record Summary := {
  total_activities : pyval;
  weekly_streak : Z;
  last_workout_date : string;
  streak_bar : string
}.

(** [not s] on a [str] *)
Definition str_is_empty (s : string) : bool :=
  match s with
  | EmptyString => true
  | String _ _ => false
  end.

(** [w["start_time"]], the key function of line 164. *)
Definition start_time_of (w : workout) : hresult pyval :=
  match w with
  | WNotDict => HRaise (Core TypeError)
  | WDict fields =>
      match fields !! "start_time" with
      | Some v => HOk v
      | None => HRaise (KeyError "start_time")
      end
  end.

(** [_ord2ymd]: (year, month, day) of an ordinal. *)
Definition days_before_month (month : Z) : Z :=
  nth (Z.to_nat month) [0; 0; 31; 59; 90; 120; 151; 181; 212; 243; 273; 304; 334] 0.

Definition days_in_month_table (month : Z) : Z :=
  nth (Z.to_nat month) [0; 31; 28; 31; 30; 31; 30; 31; 31; 30; 31; 30; 31] 0.

Definition ord2ymd (n : Z) : Z * Z * Z :=
  let n := n - 1 in
  let n400 := n / 146097 in
  let n := n mod 146097 in
  let year := n400 * 400 + 1 in
  let n100 := n / 36524 in
  let n := n mod 36524 in
  let n4 := n / 1461 in
  let n := n mod 1461 in
  let n1 := n / 365 in
  let n := n mod 365 in
  let year := year + n100 * 100 + n4 * 4 + n1 in
  if (n1 =? 4) || (n100 =? 4) then (year - 1, 12, 31)
  else
    let leapyear := (n1 =? 3) && (negb (n4 =? 24) || (n100 =? 3)) in
    let month := Z.shiftr (n + 50) 5 in
    let preceding :=
      days_before_month month + Z.b2z ((2 <? month) && leapyear) in
    if n <? preceding then
      let month := month - 1 in
      let preceding :=
        preceding - (days_in_month_table month + Z.b2z ((month =? 2) && leapyear)) in
      (year, month, n - preceding + 1)
    else (year, month, n - preceding + 1).

(** [%m] and [%d]: two digits. *)
Definition two_digits (n : Z) : string :=
  if n <? 10 then "0" +:+ pretty n else pretty n.

(** [d.strftime("%Y-%m-%d")]; the year is written as the C library of
    the platform writes it, which on Linux is without padding. *)
Definition strftime_ymd (d : Z) : string :=
  let '(year, month, day) := ord2ymd d in
  pretty year +:+ "-" +:+ two_digits month +:+ "-" +:+ two_digits day.

Section RequestHandler.

Variable float_to_timet : float -> result Z.

(** [a > b] when one side is a [float] or both are lists: the outcome
    depends on floating-point values and on list contents; [gt_other i a b]
    stands for it at the [i]-th comparison [max] makes. *)
Variable gt_other : nat -> pyval -> pyval -> hresult bool.

(** [str(e)] for the exception [e] caught on line 174. *)
Variable exn_str : hexn -> string.

(** [a > b], the [i]-th comparison made by [max]. *)
Definition py_gt (i : nat) (a b : pyval) : hresult bool :=
  match as_int a, as_int b with
  | Some x, Some y => HOk (y <? x)
  | _, _ =>
      match a, b with
      | VStr s, VStr t => HOk (String.ltb t s)
      | VFloat _, (VInt _ | VBool _ | VFloat _)
      | (VInt _ | VBool _), VFloat _
      | VList, VList => gt_other i a b
      | _, _ => HRaise (Core TypeError)
      end
  end.

(** The loop of [max(iterable, key=...)] after the first item. *)
Fixpoint max_loop (i : nat) (rest : list workout) (maxitem : workout) (maxval : pyval)
  : hresult workout :=
  match rest with
  | [] => HOk maxitem
  | item :: rest =>
      htry val := start_time_of item in
      htry greater := py_gt i val maxval in
      if greater then max_loop (S i) rest item val
      else max_loop (S i) rest maxitem maxval
  end.

(** [max(workouts, key=lambda w: w["start_time"])], line 164. *)
Definition max_by_start_time (workouts : list workout) : hresult workout :=
  match workouts with
  | [] => HRaise (Core ValueError)
  | item :: rest =>
      htry val := start_time_of item in
      max_loop 0 rest item val
  end.

(** The [try] block of [peloton_summary], lines 141-172. *)
Definition summary_body (remote : Remote) (fuel : nat) (creds : Credentials)
  : HM Summary :=
  if str_is_empty (username creds) || str_is_empty (password creds) then
    hraise (Core (HTTPException 400 "Missing credentials"))
  else
    hdo cookies := peloton_login remote (username creds) (password creds) in
    if negb (me_status remote =? 200) then
      hraise (Core (HTTPException 500 "Failed to get /me"))
    else
      hdo user_id := hlift (me_id remote) in
      if negb (profile_status remote =? 200) then
        hraise (Core (HTTPException 500 "Failed to get user profile"))
      else
        hdo total_workouts := hlift (profile_total_workouts remote) in
        match total_workouts with
        | VNone => hraise (Core (HTTPException 500 "Could not find total_workouts"))
        | _ =>
            hdo workouts := call (fetch_workouts_for_streak float_to_timet fuel) in
            hdo weekly_streak := call (calculate_weekly_streak fuel workouts) in
            let streak_bar := generate_streak_bar weekly_streak default_max_units in
            hdo last_workout := hlift (max_by_start_time workouts) in
            hdo ts := hlift (start_time_of last_workout) in
            hdo last_day := hlift (of_core (utcfromtimestamp_date float_to_timet ts)) in
            hret {| total_activities := total_workouts;
                    weekly_streak := weekly_streak;
                    last_workout_date := strftime_ymd last_day;
                    streak_bar := streak_bar |}
        end.

(** [peloton_summary], lines 139-177: whatever the [try] block raises is
    caught and raised again as a status-500 [HTTPException]. *)
Definition peloton_summary (remote : Remote) (fuel : nat) (creds : Credentials)
  : M Summary :=
  fun w =>
    match summary_body remote fuel creds w with
    | Some (HOk summary, w') => Some (Ok summary, w')
    | Some (HRaise e, w') =>
        Some (Raise (HTTPException 500 ("Internal Server Error: " +:+ exn_str e)), w')
    | None => None
    end.

End RequestHandler.

(** ** Notions used by the further properties *)

(** The timestamps of 0001-01-01T00:00:00Z and 9999-12-31T23:59:59Z. *)
Definition MIN_TIMESTAMP : Z := -62135596800.
Definition MAX_TIMESTAMP : Z := 253402300799.

(** A record the loop of lines 65-70 gets through: a [dict] whose start
    time, when it is an [int], is a timestamp of the years 1..9999. *)
Definition record_accepted (w : workout) : Prop :=
  match w with
  | WNotDict => False
  | WDict fields =>
      match as_int (dict_get fields "start_time") with
      | Some ts => MIN_TIMESTAMP ≤ ts ≤ MAX_TIMESTAMP
      | None => True
      end
  end.

(** An [int], a [bool] or a [float]: what [utcfromtimestamp] takes. *)
Definition is_number (v : pyval) : Prop :=
  match v with
  | VInt _ | VBool _ | VFloat _ => True
  | VNone | VStr _ | VList | VObject => False
  end.

(** Some record of [workouts] starts in week [yw]. *)
Definition has_workout_in (workouts : list workout) (yw : Z * Z) : Prop :=
  ∃ w, w ∈ workouts ∧ workout_week w = Ok (Some yw).

(** ** Sample data *)

(** A record whose start time is the integer [ts]. *)
Definition workout_at (ts : Z) : workout := WDict {[ "start_time" := VInt ts ]}.

(** A record whose start time is the arbitrary value [v]. *)
Definition workout_with (v : pyval) : workout := WDict {[ "start_time" := v ]}.

(** A server that answers every request with [status] and [records]. *)
Definition constant_pages (status : Z) (records : list workout) : nat -> response :=
  fun _ => {| status_code := status; data := records |}.

(** A server that answers the request for page [p] with the [p]-th of
    [answers], and with an empty page beyond them. *)
Definition serve (answers : list response) : nat -> response :=
  fun p => default {| status_code := 200; data := [] |} (answers !! p).

(** A world whose clock always shows day [today]. *)
Definition world_on (today : Z) (srv : nat -> response) : World :=
  {| utc_dates := fun _ => today; clock_reads := 0; pages := srv |}.

(** Midnight UTC of day [d] as a timestamp. *)
Definition midnight (d : Z) : Z := (d - datetime.EPOCH_ORDINAL) * 86400.

(** A page with one record per given day. *)
Definition page_of_days (days : list Z) : response :=
  {| status_code := 200; data := (fun d => workout_at (midnight d)) <$> days |}.

(** A float conversion that rejects every float; the sample data holds
    no floats. *)
Definition no_floats : float -> result Z := fun _ => Raise ValueError.

(** 1970-01-01 and 2026-11-04 as ordinals. *)
Definition day_1970_01_01 : Z := 719163.
Definition day_2026_11_04 : Z := 739924.

(** A world whose clock shows 1970-01-01 now and a day more at every
    later reading, and whose server refuses every request. *)
Definition running_clock_1970 : World :=
  {| utc_dates := fun n => day_1970_01_01 + Z.of_nat n;
     clock_reads := 0;
     pages := constant_pages 500 [WNotDict] |}.

(** Page 0 covers today back through day 9 without a gap, page 1 brings a
    record of day 11 (day 10 is missing), page 2 holds older records. *)
Definition three_pages : World :=
  world_on day_2026_11_04
    (serve [ page_of_days ((fun i => day_2026_11_04 - i) <$> seqZ 0 10);
             page_of_days [day_2026_11_04 - 11];
             page_of_days [day_2026_11_04 - 12; day_2026_11_04 - 13] ]).

(** Page 0 holds today's and yesterday's records, the request for page 1
    is answered with status 503. *)
Definition failing_second_page : World :=
  world_on day_2026_11_04
    (serve [ page_of_days [day_2026_11_04; day_2026_11_04 - 1];
             {| status_code := 503; data := [] |} ]).

(** ** Further sample data *)

(** 2020-12-31, a Thursday in week 53 of 2020, and 2021-01-04, the Monday
    of week 1 of 2021. *)
Definition day_2020_12_31 : Z := 737790.
Definition day_2021_01_04 : Z := 737794.

(** The only record of the listing started yesterday. *)
Definition yesterday_only : World :=
  world_on day_2026_11_04 (serve [ page_of_days [day_2026_11_04 - 1] ]).

(** A remote that accepts every login and reports 42 activities. *)
Definition good_remote : Remote :=
  {| login_status := fun _ _ => 200;
     me_status := 200;
     me_id := HOk (VStr "user-1");
     profile_status := 200;
     profile_total_workouts := HOk (VInt 42) |}.

Definition some_credentials : Credentials :=
  {| username := "rider"; password := "secret" |}.

(** No comparison of floats or lists is needed on the sample data. *)
Definition no_other_gt : nat -> pyval -> pyval -> hresult bool :=
  fun _ _ _ => HRaise (Core TypeError).

(** A rendering of exceptions that only names their kind. *)
Definition kind_of_exn (e : hexn) : string :=
  match e with
  | Core AttributeError => "AttributeError"
  | Core TypeError => "TypeError"
  | Core ValueError => "ValueError"
  | Core OverflowError => "OverflowError"
  | Core (HTTPException _ detail) => detail
  | KeyError key => key
  end.

(** The integer start time of a record, if it has one. *)
Definition int_start_time (w : workout) : option Z :=
  match start_time_of w with
  | HOk v => as_int v
  | HRaise _ => None
  end.

(** A world whose clock shows [today] and whose listing is empty. *)
Definition quiet_world (today : Z) : World := world_on today (constant_pages 200 []).

Example iso_2024_12_30 : datetime.isocalendar 739250 = (2025, 1, 1).
Proof. reflexivity. Qed.
Example iso_2021_01_03 : datetime.isocalendar 737793 = (2020, 53, 7).
Proof. reflexivity. Qed.
Example iso_2016_01_01 : datetime.isocalendar 735964 = (2015, 53, 5).
Proof. reflexivity. Qed.
Example iso_2026_11_04 : datetime.isocalendar 739924 = (2026, 45, 3).
Proof. reflexivity. Qed.
Example iso_min : datetime.isocalendar 1 = (1, 1, 1).
Proof. reflexivity. Qed.
Example iso_max : datetime.isocalendar 3652059 = (9999, 52, 5).
Proof. reflexivity. Qed.
Example date_epoch : datetime.date_of_timet 0 = Ok 719163.
Proof. reflexivity. Qed.
Example date_first : datetime.date_of_timet (-62135596800) = Ok 1.
Proof. reflexivity. Qed.
Example date_too_early : datetime.date_of_timet (-62135596801) = Raise ValueError.
Proof. reflexivity. Qed.
Example date_last : datetime.date_of_timet 253402300799 = Ok 3652059.
Proof. reflexivity. Qed.
Example date_too_late : datetime.date_of_timet 253402300800 = Raise ValueError.
Proof. reflexivity. Qed.
Example bar_5 : generate_streak_bar 5 default_max_units = "●●●●●".
Proof. reflexivity. Qed.
Example bar_neg : generate_streak_bar 3 (-2) = " +5".
Proof. reflexivity. Qed.

(** * Properties *)

(** ** The backward walk over weeks *)

Section BackwardWalk.

Implicit Types (yw : Z * Z) (weeks : gset (Z * Z)).

Lemma step_back_lt yw : week_lt (step_back yw) yw.
Proof.
  destruct yw as [y w]. unfold step_back, week_lt.
  destruct (Z.eqb_spec w 1); simpl; lia.
Qed.

Lemma week_lt_trans yw1 yw2 yw3 :
  week_lt yw1 yw2 → week_lt yw2 yw3 → week_lt yw1 yw3.
Proof. unfold week_lt. lia. Qed.

Lemma week_lt_irrefl yw : ¬ week_lt yw yw.
Proof. unfold week_lt. lia. Qed.

Lemma back_S k yw : back (S k) yw = back k (step_back yw).
Proof. unfold back. by rewrite Nat.iter_succ_r. Qed.

Lemma back_lt i j yw : (i < j)%nat → week_lt (back j yw) (back i yw).
Proof.
  induction 1 as [|j _ IH].
  - apply step_back_lt.
  - eapply week_lt_trans; [apply step_back_lt | exact IH].
Qed.

Lemma back_inj i j yw : back i yw = back j yw → i = j.
Proof.
  intros Heq. destruct (Nat.lt_trichotomy i j) as [Hlt|[->|Hlt]]; [|done|].
  - pose proof (back_lt _ _ yw Hlt) as H. rewrite Heq in H.
    by apply week_lt_irrefl in H.
  - pose proof (back_lt _ _ yw Hlt) as H. rewrite Heq in H.
    by apply week_lt_irrefl in H.
Qed.

(** A walk that stays inside [weeks] for [n] steps has met [n] distinct
    members of it. *)
Lemma walk_bounded_by_size weeks yw (n : nat) :
  (∀ i, (i < n)%nat → back i yw ∈ weeks) → (n ≤ size weeks)%nat.
Proof.
  intros Hin.
  set (visited := (λ i, back i yw) <$> seq 0 n).
  assert (NoDup visited) as Hnd.
  { apply NoDup_fmap_2_strong; [|apply NoDup_seq].
    intros i j _ _. apply back_inj. }
  assert (list_to_set visited ⊆ weeks) as Hsub.
  { intros x. rewrite elem_of_list_to_set. unfold visited.
    rewrite list_elem_of_fmap. intros (i & -> & Hi).
    apply elem_of_seq in Hi. apply Hin. lia. }
  apply subseteq_size in Hsub.
  rewrite size_list_to_set in Hsub by done.
  unfold visited in Hsub. by rewrite length_fmap, length_seq in Hsub.
Qed.

(** What a finished run of the loop says about the walk. *)
Lemma streak_loop_Some fuel weeks yw streak r :
  streak_loop fuel weeks yw streak = Some r ↔
  ∃ n : nat, (n < fuel)%nat ∧ r = streak + Z.of_nat n ∧
             (∀ i, (i < n)%nat → back i yw ∈ weeks) ∧ back n yw ∉ weeks.
Proof.
  revert yw streak. induction fuel as [|fuel IH]; intros yw streak; simpl.
  - split; [done | intros (n & ? & _); lia].
  - destruct (decide (yw ∈ weeks)) as [Hin|Hout].
    + rewrite IH. split.
      * intros (n & Hn & -> & Hall & Hstop). exists (S n).
        split; [lia|]. split; [lia|]. split.
        -- intros [|i] Hi; [done|]. rewrite back_S. apply Hall. lia.
        -- by rewrite back_S.
      * intros ([|n] & Hn & -> & Hall & Hstop); [done|].
        exists n. split; [lia|]. split; [lia|]. split.
        -- intros i Hi. rewrite <- back_S. apply Hall. lia.
        -- by rewrite <- back_S.
    + split.
      * intros [= <-]. exists 0%nat. split; [lia|]. split; [lia|].
        split; [intros; lia | done].
      * intros ([|n] & Hn & -> & Hall & Hstop).
        -- f_equal. lia.
        -- exfalso. apply Hout. apply (Hall 0%nat). lia.
Qed.

(** A run that uses up its bound has stayed inside [weeks] throughout. *)
Lemma streak_loop_None fuel weeks yw streak :
  streak_loop fuel weeks yw streak = None →
  ∀ i, (i < fuel)%nat → back i yw ∈ weeks.
Proof.
  revert yw streak. induction fuel as [|fuel IH]; intros yw streak; simpl.
  - intros _ i Hi. lia.
  - destruct (decide (yw ∈ weeks)) as [Hin|Hout]; [|done].
    intros Hnone [|i] Hi; [done|].
    rewrite back_S. apply (IH _ _ Hnone). lia.
Qed.

(** The loop always finishes: the walk leaves [weeks] after at most
    [size weeks] steps, and any bound above that gives the same count. *)
Lemma streak_loop_total weeks yw :
  ∃ n : nat, (n ≤ size weeks)%nat ∧
    (∀ i, (i < n)%nat → back i yw ∈ weeks) ∧ (back n yw ∉ weeks) ∧
    (∀ fuel streak, (n < fuel)%nat →
       streak_loop fuel weeks yw streak = Some (streak + Z.of_nat n)).
Proof.
  destruct (streak_loop (S (size weeks)) weeks yw 0) as [r|] eqn:Hrun.
  - apply streak_loop_Some in Hrun as (n & Hn & -> & Hall & Hstop).
    exists n. split; [by apply (walk_bounded_by_size weeks yw)|].
    split; [done|]. split; [done|].
    intros fuel streak Hfuel. apply streak_loop_Some. by exists n.
  - pose proof (streak_loop_None _ _ _ _ Hrun) as Hall.
    apply walk_bounded_by_size in Hall. lia.
Qed.

End BackwardWalk.

(** ** The active-weeks set *)

Section ActiveWeeks.

Implicit Types (w : workout) (workouts : list workout) (weeks : gset (Z * Z)).

Lemma add_workout_week_spec weeks w :
  add_workout_week weeks w =
  try o := workout_week w in
  Ok (match o with Some yw => {[ yw ]} ∪ weeks | None => weeks end).
Proof.
  destruct w as [fields|]; [|done]. simpl.
  destruct (as_int _) as [ts|]; [|done].
  destruct (datetime.date_of_timet ts) as [d|e]; [|done]. simpl.
  unfold iso_week. by destruct (datetime.isocalendar d) as [[y wk] ?].
Qed.

(** Every week in the set comes from the initial set or from a record. *)
Lemma collect_weeks_elem workouts acc weeks :
  collect_weeks workouts acc = Ok weeks →
  ∀ yw, yw ∈ weeks ↔
        yw ∈ acc ∨ ∃ w, w ∈ workouts ∧ workout_week w = Ok (Some yw).
Proof.
  revert acc. induction workouts as [|w rest IH]; intros acc; simpl.
  - intros [= <-] yw. split; [by left|].
    intros [?|(w & Hw & _)]; [done|]. by apply elem_of_nil in Hw.
  - rewrite add_workout_week_spec.
    destruct (workout_week w) as [o|e] eqn:Hw; [|done]. simpl.
    intros Hrest yw. rewrite (IH _ Hrest yw). split.
    + intros [Hin|(w' & Hw' & Hyw)].
      * destruct o as [yw'|]; [|by left].
        apply elem_of_union in Hin as [Hin|Hin]; [|by left].
        apply elem_of_singleton in Hin as ->.
        right. exists w. split; [apply list_elem_of_here|done].
      * right. exists w'. split; [by apply list_elem_of_further|done].
    + intros [Hin|(w' & Hw' & Hyw)].
      * left. destruct o; [apply elem_of_union; by right | done].
      * apply elem_of_cons in Hw' as [->|Hw'].
        -- left. rewrite Hw in Hyw. injection Hyw as ->.
       apply elem_of_union. left. by apply elem_of_singleton.
        -- right. by exists w'.
Qed.

(** The loop raises exactly when some record does. *)
Lemma collect_weeks_is_Ok workouts acc :
  (∃ weeks, collect_weeks workouts acc = Ok weeks) ↔
  ∀ w, w ∈ workouts → ∃ o, workout_week w = Ok o.
Proof.
  revert acc. induction workouts as [|w rest IH]; intros acc; simpl.
  - split; [|by eauto]. intros _ w Hw. by apply elem_of_nil in Hw.
  - rewrite add_workout_week_spec. split.
    + intros [weeks Hrun].
      destruct (workout_week w) as [o|e] eqn:Hw; [|done]. simpl in Hrun.
      intros w' Hw'. apply elem_of_cons in Hw' as [->|Hw']; [by exists o|].
      apply (proj1 (IH _) (ex_intro _ weeks Hrun) w' Hw').
    + intros Hall. destruct (Hall w) as [o Hw]; [apply list_elem_of_here|].
      rewrite Hw. simpl. apply IH.
      intros w' Hw'. apply Hall. by apply list_elem_of_further.
Qed.

(** Each record adds at most one week. *)
Lemma collect_weeks_size workouts acc weeks :
  collect_weeks workouts acc = Ok weeks →
  (size weeks ≤ size acc + length workouts)%nat.
Proof.
  revert acc. induction workouts as [|w rest IH]; intros acc; simpl.
  - intros [= <-]. lia.
  - rewrite add_workout_week_spec.
    destruct (workout_week w) as [o|e]; [|done]. simpl.
    intros Hrest. apply IH in Hrest.
    destruct o as [yw|]; [|lia].
    assert (size ({[ yw ]} ∪ acc) ≤ S (size acc))%nat as Hu; [|lia].
    rewrite size_union_alt, size_singleton.
    assert (acc ∖ {[ yw ]} ⊆ acc) as Hd
    by (intros x Hx; by apply elem_of_difference in Hx as [? _]).
    apply subseteq_size in Hd. lia.
Qed.

End ActiveWeeks.

(** ** Runs of the calculator *)

Section CalculatorRuns.

Implicit Types (workouts : list workout) (weeks : gset (Z * Z)) (world : World).

Lemma calculate_raises fuel workouts world e :
  collect_weeks workouts ∅ = Raise e →
  calculate_weekly_streak fuel workouts world = Some (Raise e, world).
Proof. intros H. unfold calculate_weekly_streak, bind, lift. by rewrite H. Qed.

Lemma calculate_no_weeks fuel workouts world :
  collect_weeks workouts ∅ = Ok ∅ →
  calculate_weekly_streak fuel workouts world = Some (Ok 0, world).
Proof.
  intros H. unfold calculate_weekly_streak, bind, lift. rewrite H.
  by rewrite decide_True.
Qed.

Lemma calculate_walks fuel workouts world weeks :
  collect_weeks workouts ∅ = Ok weeks → weeks ≠ ∅ →
  calculate_weekly_streak fuel workouts world =
  match streak_loop fuel weeks (iso_week (next_today world)) 0 with
  | Some streak => Some (Ok streak, tick world)
  | None => None
  end.
Proof.
  intros H Hne. unfold calculate_weekly_streak, bind, lift. rewrite H.
  rewrite decide_False by done. unfold utcnow_date, iso_week, next_today.
  destruct (datetime.isocalendar _) as [[y wk] ?].
  by destruct (streak_loop _ _ _ _).
Qed.

End CalculatorRuns.

(** ** Claims about the calculator *)

(** C2.  In the calculator's backward walk every reached week pair that
    is in the active-weeks set increments the streak counter and moves the
    walk back one week, to [(y - 1, 52)] when [w = 1] and to [(y, w - 1)]
    otherwise; the walk stops at the first pair outside the set and
    returns the count accumulated so far. *)
Theorem backward_walk_one_week_at_a_time (weeks : gset (Z * Z)) (yw : Z * Z) :
  ∃ n : nat,
    (∀ i, (i < n)%nat →
       back i yw ∈ weeks ∧
       ∀ fuel streak,
         streak_loop (S fuel) weeks (back i yw) streak =
         streak_loop fuel weeks (back (S i) yw) (streak + 1)) ∧
    (back n yw ∉ weeks) ∧
    (∀ fuel streak, streak_loop (S fuel) weeks (back n yw) streak = Some streak) ∧
    (∀ fuel, (n < fuel)%nat → streak_loop fuel weeks yw 0 = Some (Z.of_nat n)) ∧
    (∀ i y w, back i yw = (y, w) →
       back (S i) yw = if w =? 1 then (y - 1, 52) else (y, w - 1)).
Proof.
  destruct (streak_loop_total weeks yw) as (n & _ & Hall & Hstop & Hrun).
  exists n. repeat split.
  - by apply Hall.
  - intros fuel streak. simpl. by rewrite decide_True by by apply Hall.
  - done.
  - intros fuel streak. simpl. by rewrite decide_False.
  - intros fuel Hfuel. by rewrite (Hrun fuel 0 Hfuel).
  - intros i y w Hi. unfold back in *. simpl. by rewrite Hi.
Qed.

(** C7, as the specification words it, fails: a record whose integer
    start time lies outside the years 1..9999 yields no week pair either,
    and on it [utcfromtimestamp] raises (line 68), so the calculator
    signals an error instead of returning 0. *)
Lemma no_valid_week_may_still_raise :
  ¬ (∀ (fuel : nat) (workouts : list workout) (world : World),
       Forall (λ w, ∀ yw, workout_week w ≠ Ok (Some yw)) workouts →
       fst <$> calculate_weekly_streak fuel workouts world = Some (Ok 0)).
Proof.
  intros Hclaim.
  specialize (Hclaim 2%nat [workout_at 253402300800]
                (world_on day_2026_11_04 (constant_pages 200 []))).
  discriminate Hclaim.
  constructor; [|constructor]. intros yw Hyw. discriminate Hyw.
Qed.

(** C7 (amended).  When every record is skipped by the test of line 67
    because its start time is missing or not an integer (in particular
    when there are no records at all), the calculator returns 0, raises
    nothing and does not enter its loop. *)
Theorem calculate_weekly_streak_no_valid_week
    (fuel : nat) (workouts : list workout) (world : World) :
  Forall (λ w, workout_week w = Ok None) workouts →
  calculate_weekly_streak fuel workouts world = Some (Ok 0, world).
Proof.
  intros Hskip. apply calculate_no_weeks.
  destruct (proj2 (collect_weeks_is_Ok workouts ∅)) as [weeks Hrun].
  { intros w Hw. exists None. by apply (proj1 (Forall_forall _ _) Hskip). }
  rewrite Hrun. f_equal. apply set_eq. intros yw.
  rewrite (collect_weeks_elem _ _ _ Hrun yw). split; [|set_solver].
  intros [Hin|(w & Hw & Hyw)]; [done|].
  rewrite (proj1 (Forall_forall _ _) Hskip w Hw) in Hyw. done.
Qed.

Lemma calculate_weekly_streak_no_valid_week_witness :
  calculate_weekly_streak 0
    [WDict ∅; workout_with (VStr "yesterday"); workout_with VNone]
    (world_on day_2026_11_04 (constant_pages 200 [])) =
  Some (Ok 0, world_on day_2026_11_04 (constant_pages 200 [])).
Proof.
  apply calculate_weekly_streak_no_valid_week.
  repeat constructor.
Defined.

(** The streak is never negative. *)
Lemma calculate_weekly_streak_nonneg fuel workouts world streak world' :
  calculate_weekly_streak fuel workouts world = Some (Ok streak, world') →
  0 ≤ streak.
Proof.
  destruct (collect_weeks workouts ∅) as [weeks|e] eqn:Hw.
  - destruct (decide (weeks = ∅)) as [->|Hne].
    + rewrite (calculate_no_weeks _ _ _ Hw). by intros [= <- _].
    + rewrite (calculate_walks _ _ _ _ Hw Hne).
      destruct (streak_loop _ _ _ _) as [r|] eqn:Hrun; [|done].
      apply streak_loop_Some in Hrun as (n & _ & -> & _). intros [= <- _]. lia.
  - by rewrite (calculate_raises _ _ _ _ Hw).
Qed.

(** C8.  The calculator is monotone in its records: when every record of
    [S] is a record of [T] and the calculator returns a streak for [T],
    it returns one for [S] from the same world (the same reference date),
    and that streak is no larger. *)
Theorem calculate_weekly_streak_monotone
    (fuel : nat) (recordsS recordsT : list workout) (world world' : World) (t : Z) :
  recordsS ⊆ recordsT →
  calculate_weekly_streak fuel recordsT world = Some (Ok t, world') →
  ∃ s world'',
    calculate_weekly_streak fuel recordsS world = Some (Ok s, world'') ∧ s ≤ t.
Proof.
  intros Hsub HT.
  destruct (collect_weeks recordsT ∅) as [weeksT|e] eqn:HwT;
    [|by rewrite (calculate_raises _ _ _ _ HwT) in HT].
  destruct (proj2 (collect_weeks_is_Ok recordsS ∅)) as [weeksS HwS].
  { intros w Hw.
    apply (proj1 (collect_weeks_is_Ok recordsT ∅)); [by exists weeksT|].
    by apply Hsub. }
  assert (weeksS ⊆ weeksT) as Hweeks.
  { intros yw. rewrite (collect_weeks_elem _ _ _ HwS yw).
    rewrite (collect_weeks_elem _ _ _ HwT yw).
    intros [Hin|(w & Hw & Hyw)]; [by left|].
    right. exists w. split; [by apply Hsub | done]. }
  destruct (decide (weeksS = ∅)) as [->|HneS].
  { exists 0, world. split; [by apply calculate_no_weeks|].
    by eapply calculate_weekly_streak_nonneg. }
  assert (weeksT ≠ ∅) as HneT.
  { intros ->. apply HneS. apply set_eq. intros yw. split; [apply Hweeks|].
    intros Hin. by apply not_elem_of_empty in Hin. }
  rewrite (calculate_walks _ _ _ _ HwT HneT) in HT.
  rewrite (calculate_walks _ _ _ _ HwS HneS).
  set (start := iso_week (next_today world)) in *.
  destruct (streak_loop fuel weeksT start 0) as [r|] eqn:HrunT; [|done].
  injection HT as <- <-.
  apply streak_loop_Some in HrunT as (nT & HfT & -> & HallT & HstopT).
  destruct (streak_loop_total weeksS start) as (nS & _ & HallS & HstopS & HrunS).
  assert (nS ≤ nT)%nat as Hle.
  { destruct (Nat.le_gt_cases nS nT) as [?|Hgt]; [done|].
    exfalso. apply HstopT. apply Hweeks. by apply HallS. }
  exists (0 + Z.of_nat nS), (tick world).
  rewrite (HrunS fuel 0) by lia. split; [done|lia].
Qed.

Lemma calculate_weekly_streak_monotone_witness :
  ∃ s world'',
    calculate_weekly_streak 5 [workout_at 0] (world_on day_1970_01_01 (constant_pages 200 []))
      = Some (Ok s, world'') ∧ s ≤ 2.
Proof.
  apply (calculate_weekly_streak_monotone 5
           [workout_at 0] [workout_at (-604800); workout_at 0]
           (world_on day_1970_01_01 (constant_pages 200 []))
           (tick (world_on day_1970_01_01 (constant_pages 200 []))) 2).
  - intros w Hw. apply list_elem_of_singleton in Hw as ->.
    apply list_elem_of_further, list_elem_of_here.
  - vm_compute. reflexivity.
Defined.

(** C9, as the specification states it, fails on the empty collection:
    every record of an empty collection is in the current week, and the
    calculator returns 0 there (line 73). *)
Lemma current_week_only_fails_on_empty :
  ¬ (∀ (fuel : nat) (workouts : list workout) (world : World),
       (2 ≤ fuel)%nat →
       Forall (λ w, workout_week w = Ok (Some (iso_week (next_today world))))
              workouts →
       fst <$> calculate_weekly_streak fuel workouts world = Some (Ok 1)).
Proof.
  intros Hclaim.
  specialize (Hclaim 2%nat [] (world_on day_2026_11_04 (constant_pages 200 []))).
  discriminate Hclaim; [lia | constructor].
Qed.

(** C9 (amended).  For every non-empty collection in which every record's
    ISO (year, week) pair is the current week's pair, the calculator
    returns exactly 1. *)
Theorem calculate_weekly_streak_current_week_only
    (fuel : nat) (workouts : list workout) (world : World) :
  workouts ≠ [] →
  Forall (λ w, workout_week w = Ok (Some (iso_week (next_today world))))
         workouts →
  (2 ≤ fuel)%nat →
  calculate_weekly_streak fuel workouts world = Some (Ok 1, tick world).
Proof.
  intros Hne Hall Hfuel.
  set (cur := iso_week (next_today world)) in *.
  pose proof (proj1 (Forall_forall _ _) Hall) as Hall'.
  destruct (proj2 (collect_weeks_is_Ok workouts ∅)) as [weeks Hrun].
  { intros w Hw. exists (Some cur). by apply Hall'. }
  assert (∀ yw, yw ∈ weeks ↔ yw = cur) as Hweeks.
  { intros yw. rewrite (collect_weeks_elem _ _ _ Hrun yw). split.
    - intros [Hin|(w & Hw & Hyw)]; [done|].
      rewrite (Hall' w Hw) in Hyw. by injection Hyw.
    - intros ->. right. destruct workouts as [|w rest]; [done|].
      exists w. split; [apply list_elem_of_here|].
      apply Hall'. apply list_elem_of_here. }
  assert (weeks ≠ ∅) as Hnz.
  { intros ->. by apply (not_elem_of_empty (C:=gset (Z * Z)) cur), Hweeks. }
  rewrite (calculate_walks _ _ _ _ Hrun Hnz). fold cur.
  assert (streak_loop fuel weeks cur 0 = Some 1) as ->; [|done].
  apply streak_loop_Some. exists 1%nat. split; [lia|]. split; [done|]. split.
  - intros [|i] Hi; [|lia]. by apply Hweeks.
  - rewrite Hweeks. intros Heq.
    pose proof (step_back_lt cur) as Hlt. unfold back in Heq. simpl in Heq.
    rewrite Heq in Hlt. by apply week_lt_irrefl in Hlt.
Qed.

Lemma calculate_weekly_streak_current_week_only_witness :
  calculate_weekly_streak 2 [workout_at 0; workout_at 86400; workout_at 3600]
    (world_on day_1970_01_01 (constant_pages 200 [])) =
  Some (Ok 1, tick (world_on day_1970_01_01 (constant_pages 200 []))).
Proof.
  apply calculate_weekly_streak_current_week_only.
  - discriminate.
  - repeat constructor.
  - lia.
Defined.

(** C10.  The backward-walking loop always terminates.  The pairs it
    visits are pairwise distinct; on any active-weeks set it leaves the
    loop after at most as many iterations as the set has members; and the
    calculator, given a bound above the number of records, always returns,
    with a streak that never exceeds the number of distinct week pairs
    derived from the records. *)
Theorem calculate_weekly_streak_terminates (workouts : list workout) (world : World) :
  (∀ yw (i j : nat), i ≠ j → back i yw ≠ back j yw) ∧
  (∀ weeks yw, ∃ n : nat,
     (n ≤ size weeks)%nat ∧
     ∀ fuel streak, (n < fuel)%nat →
       streak_loop fuel weeks yw streak = Some (streak + Z.of_nat n)) ∧
  (∃ r world',
     (∀ fuel, (length workouts < fuel)%nat →
        calculate_weekly_streak fuel workouts world = Some (r, world')) ∧
     (∀ streak, r = Ok streak →
        ∃ weeks, collect_weeks workouts ∅ = Ok weeks ∧
                 0 ≤ streak ≤ Z.of_nat (size weeks))).
Proof.
  split; [|split].
  - intros yw i j Hne Heq. by apply Hne, (back_inj i j yw).
  - intros weeks yw.
    destruct (streak_loop_total weeks yw) as (n & Hn & _ & _ & Hrun).
    by exists n.
  - destruct (collect_weeks workouts ∅) as [weeks|e] eqn:Hw.
    + destruct (decide (weeks = ∅)) as [->|Hne].
      * exists (Ok 0), world. split.
        -- intros fuel _. by apply calculate_no_weeks.
        -- intros streak [= <-]. exists ∅. split; [done|]. lia.
      * pose proof (collect_weeks_size _ _ _ Hw) as Hsize.
        rewrite size_empty in Hsize.
        destruct (streak_loop_total weeks (iso_week (next_today world)))
          as (n & Hn & _ & _ & Hrun).
        exists (Ok (0 + Z.of_nat n)), (tick world). split.
        -- intros fuel Hfuel. rewrite (calculate_walks _ _ _ _ Hw Hne).
           by rewrite (Hrun fuel 0) by lia.
        -- intros streak [= <-]. exists weeks. split; [done|]. lia.
    + exists (Raise e), world. split.
      * intros fuel _. by apply calculate_raises.
      * intros streak [=].
Qed.

(** C3, as the specification states it, fails: the calculator's only
    explicit argument is the record list, and the reference date comes
    from the wall clock, read inside the function (line 75).  Were the
    clock not read, the same records would give the same streak in any
    two worlds; they do not. *)
Lemma calculator_reads_the_wall_clock :
  ¬ (∀ (fuel : nat) (workouts : list workout) (world1 world2 : World),
       fst <$> calculate_weekly_streak fuel workouts world1 =
       fst <$> calculate_weekly_streak fuel workouts world2).
Proof.
  intros Hclaim.
  specialize (Hclaim 2%nat [workout_at 0]
                (world_on day_1970_01_01 (constant_pages 200 []))
                (world_on day_2026_11_04 (constant_pages 200 []))).
  vm_compute in Hclaim. discriminate Hclaim.
Qed.

(** C3 (amended).  The calculator takes the workout records as its one
    explicit argument and obtains the reference date by reading the UTC
    wall clock internally, at most once, and only when the active-weeks
    set is not empty; for every records input the returned streak is
    fully determined by the records and the date that reading yields. *)
Theorem calculate_weekly_streak_determined_by_records_and_date
    (fuel : nat) (workouts : list workout) (world1 world2 : World) :
  next_today world1 = next_today world2 →
  fst <$> calculate_weekly_streak fuel workouts world1 =
  fst <$> calculate_weekly_streak fuel workouts world2
  ∧ (∀ r world', calculate_weekly_streak fuel workouts world1 = Some (r, world') →
                 world' = world1 ∨ world' = tick world1)
  ∧ (∀ r world', calculate_weekly_streak fuel workouts world1 = Some (r, world') →
                 (active_weeks_nonempty workouts → world' = tick world1) ∧
                 (¬ active_weeks_nonempty workouts → world' = world1))
  ∧ tick world1 ≠ world1.
Proof.
  intros Htoday.
  assert (tick world1 ≠ world1) as Hticked.
  { intros Heq. apply (f_equal clock_reads) in Heq. simpl in Heq. lia. }
  destruct (collect_weeks workouts ∅) as [weeks|e] eqn:Hw.
  - destruct (decide (weeks = ∅)) as [->|Hne].
    + rewrite !(calculate_no_weeks _ _ _ Hw). split; [done|].
      split; [intros r world' [= _ <-]; by left|]. split; [|done].
      intros r world' [= _ <-]. split; [|done].
      intros (weeks & Hweeks & Hne). rewrite Hw in Hweeks.
      by injection Hweeks as <-.
    + rewrite !(calculate_walks _ _ _ _ Hw Hne), Htoday.
      destruct (streak_loop _ _ _ _); (split; [done|]);
        (split; [try done; intros r world' [= _ <-]; by right|]);
        (split; [|done]); try done.
      intros r world' [= _ <-]. split; [done|].
      intros Hnot. exfalso. apply Hnot. by exists weeks.
  - rewrite !(calculate_raises _ _ _ _ Hw). split; [done|].
    split; [intros r world' [= _ <-]; by left|]. split; [|done].
    intros r world' [= _ <-]. split; [|done].
    intros (weeks & Hweeks & _). by rewrite Hw in Hweeks.
Qed.

Lemma calculate_weekly_streak_determined_by_records_and_date_witness :
  fst <$> calculate_weekly_streak 3 [workout_at 0; workout_at (-604800)]
            (world_on day_1970_01_01 (constant_pages 200 [])) =
  fst <$> calculate_weekly_streak 3 [workout_at 0; workout_at (-604800)]
            running_clock_1970
  ∧ (∀ r world',
       calculate_weekly_streak 3 [workout_at 0; workout_at (-604800)]
         (world_on day_1970_01_01 (constant_pages 200 [])) = Some (r, world') →
       world' = world_on day_1970_01_01 (constant_pages 200 []) ∨
       world' = tick (world_on day_1970_01_01 (constant_pages 200 [])))
  ∧ (∀ r world',
       calculate_weekly_streak 3 [workout_at 0; workout_at (-604800)]
         (world_on day_1970_01_01 (constant_pages 200 [])) = Some (r, world') →
       (active_weeks_nonempty [workout_at 0; workout_at (-604800)] →
        world' = tick (world_on day_1970_01_01 (constant_pages 200 []))) ∧
       (¬ active_weeks_nonempty [workout_at 0; workout_at (-604800)] →
        world' = world_on day_1970_01_01 (constant_pages 200 [])))
  ∧ tick (world_on day_1970_01_01 (constant_pages 200 []))
    ≠ world_on day_1970_01_01 (constant_pages 200 []).
Proof.
  apply (calculate_weekly_streak_determined_by_records_and_date 3
           [workout_at 0; workout_at (-604800)]
           (world_on day_1970_01_01 (constant_pages 200 []))
           running_clock_1970).
  reflexivity.
Defined.

(** ** The gap check *)

Section GapCheck.

Variable float_to_timet : float -> result Z.

Lemma date_of_timet_valid timet d :
  datetime.date_of_timet timet = Ok d → valid_date d.
Proof.
  unfold datetime.date_of_timet, valid_date.
  destruct (_ || _); [done|].
  destruct (_ && _) eqn:Hrange; [|done].
  intros [= <-]. apply andb_prop in Hrange as [H1 H2]. lia.
Qed.

Lemma utcfromtimestamp_date_valid v d :
  utcfromtimestamp_date float_to_timet v = Ok d → valid_date d.
Proof.
  destruct v as [|b|z|f|s| |]; simpl; try done.
  - apply date_of_timet_valid.
  - apply date_of_timet_valid.
  - destruct (float_to_timet f) as [timet|e]; [|done]. simpl.
    apply date_of_timet_valid.
Qed.

Lemma collect_dates_valid workouts acc s :
  collect_dates float_to_timet workouts acc = Ok s →
  (∀ d, d ∈ acc → valid_date d) → ∀ d, d ∈ s → valid_date d.
Proof.
  revert acc. induction workouts as [|w rest IH]; intros acc; simpl.
  - by intros [= <-].
  - destruct w as [fields|]; [|by apply IH].
    destruct (fields !! "start_time") as [v|]; [|by apply IH].
    destruct (utcfromtimestamp_date _ v) as [d0|e] eqn:Hd0; [|done]. simpl.
    intros Hrest Hacc. apply (IH _ Hrest).
    intros d Hd. apply elem_of_union in Hd as [Hd|Hd]; [|by apply Hacc].
    apply elem_of_singleton in Hd as ->.
    by eapply utcfromtimestamp_date_valid.
Qed.

(** The sorted dates are dates, in descending order, without repeats. *)
Lemma workout_dates_sorted workouts dates :
  workout_dates float_to_timet workouts = Ok dates →
  Forall valid_date dates ∧ StronglySorted (flip Z.le) dates ∧ NoDup dates.
Proof.
  unfold workout_dates.
  destruct (collect_dates _ workouts ∅) as [s|e] eqn:Hs; [|done]. simpl.
  intros [= <-]. unfold sorted_desc.
  pose proof (merge_sort_Permutation (flip Z.le) (elements s)) as Hperm.
  split; [|split].
  - rewrite Hperm. apply Forall_forall. intros d Hd.
    apply elem_of_elements in Hd.
    eapply collect_dates_valid; [exact Hs | | exact Hd].
    intros d' Hd'. by apply not_elem_of_empty in Hd'.
  - apply StronglySorted_merge_sort.
    + intros x y z. unfold flip. lia.
    + intros x y. unfold flip. lia.
  - rewrite Hperm. apply NoDup_elements.
Qed.

Lemma sub_days_ok today (i : nat) :
  valid_date today → 1 ≤ today - Z.of_nat i →
  datetime.sub_days today (Z.of_nat i) = Ok (today - Z.of_nat i).
Proof.
  unfold valid_date, datetime.sub_days, datetime.MAXORDINAL. intros Ht Hi.
  destruct (Z.ltb_spec 999999999 (Z.abs (Z.of_nat i))); [lia|].
  destruct (Z.ltb_spec 0 (today - Z.of_nat i)); [|lia].
  destruct (Z.leb_spec (today - Z.of_nat i) 3652059); [done|lia].
Qed.

(** On dates as [workout_dates] produces them, the loop of lines 120-122
    never overflows: it reports a gap exactly when some date is not
    where the day-by-day sequence expects it. *)
Lemma gap_loop_from today (i : nat) dates :
  valid_date today →
  Forall valid_date dates → StronglySorted (flip Z.le) dates → NoDup dates →
  dates = [] ∨ 1 ≤ today - Z.of_nat i →
  (gap_loop today i dates = Ok false ∧
   ∀ (k : nat) d, dates !! k = Some d → d = today - Z.of_nat (i + k))
  ∨ (gap_loop today i dates = Ok true ∧
     ∃ (k : nat) d, dates !! k = Some d ∧ d ≠ today - Z.of_nat (i + k)).
Proof.
  intros Htoday. revert i.
  induction dates as [|d rest IH]; intros i Hvalid Hsorted Hnodup Hroom.
  - left. split; [done|]. intros k d Hk. by rewrite lookup_nil in Hk.
  - destruct Hroom as [|Hroom]; [done|]. simpl.
    rewrite (sub_days_ok _ _ Htoday Hroom). simpl.
    destruct (Z.eqb_spec d (today - Z.of_nat i)) as [Heq|Hne].
    + apply Forall_cons in Hvalid as [Hd Hvalid].
      apply StronglySorted_inv in Hsorted as [Hsorted Hbelow].
      apply NoDup_cons in Hnodup as [Hfresh Hnodup].
      destruct (IH (S i) Hvalid Hsorted Hnodup) as [[Hrun Hall]|[Hrun Hex]].
      * destruct rest as [|d' rest']; [by left|]. right.
        apply Forall_cons in Hvalid as [Hd' _].
        apply Forall_cons in Hbelow as [Hle _]. unfold flip in Hle.
        assert (d' ≠ d) by (intros ->; apply Hfresh, list_elem_of_here).
        unfold valid_date in Hd'. lia.
      * left. split; [done|]. intros [|k] d' Hk; simpl in Hk.
        -- injection Hk as <-. rewrite Nat.add_0_r. done.
        -- rewrite (Hall k d' Hk). f_equal. lia.
      * right. split; [done|]. destruct Hex as (k & d' & Hk & Hne).
        exists (S k), d'. split; [done|].
        intros Heq'. apply Hne. rewrite Heq'. f_equal. lia.
    + right. split; [done|]. exists 0%nat, d. split; [done|].
      by rewrite Nat.add_0_r.
Qed.

Lemma gap_loop_no_gap workouts dates today :
  valid_date today →
  workout_dates float_to_timet workouts = Ok dates →
  gap_loop today 0 dates = Ok false ↔ no_gap today dates.
Proof.
  intros Htoday Hdates.
  destruct (workout_dates_sorted _ _ Hdates) as (Hvalid & Hsorted & Hnodup).
  destruct (gap_loop_from today 0 dates Htoday Hvalid Hsorted Hnodup)
    as [[Hrun Hall]|[Hrun Hex]].
  - right. unfold valid_date in Htoday. lia.
  - split; [|done]. intros _ i d Hi. by rewrite (Hall i d Hi).
  - split; [by rewrite Hrun|]. intros Hno.
    destruct Hex as (k & d & Hk & Hne). by specialize (Hno k d Hk).
Qed.

Lemma gap_loop_gap workouts dates today :
  valid_date today →
  workout_dates float_to_timet workouts = Ok dates →
  gap_loop today 0 dates = Ok true ↔
  ∃ (i : nat) d, dates !! i = Some d ∧ d ≠ today - Z.of_nat i.
Proof.
  intros Htoday Hdates.
  destruct (workout_dates_sorted _ _ Hdates) as (Hvalid & Hsorted & Hnodup).
  destruct (gap_loop_from today 0 dates Htoday Hvalid Hsorted Hnodup)
    as [[Hrun Hall]|[Hrun Hex]].
  - right. unfold valid_date in Htoday. lia.
  - split; [by rewrite Hrun|].
    intros (i & d & Hi & Hne). by specialize (Hall i d Hi).
  - split; [done|]. by intros _.
Qed.

Lemma gap_loop_decided workouts dates today :
  valid_date today →
  workout_dates float_to_timet workouts = Ok dates →
  ∃ gap : bool, gap_loop today 0 dates = Ok gap.
Proof.
  intros Htoday Hdates.
  destruct (workout_dates_sorted _ _ Hdates) as (Hvalid & Hsorted & Hnodup).
  destruct (gap_loop_from today 0 dates Htoday Hvalid Hsorted Hnodup)
    as [[Hrun _]|[Hrun _]]; [right; unfold valid_date in Htoday; lia | | ];
    eauto.
Qed.

End GapCheck.

(** ** Runs of the fetcher *)

Section FetcherRuns.

Variable float_to_timet : float -> result Z.

Local Abbreviation fetch_loop := (fetch_loop float_to_timet).
Local Abbreviation workout_dates := (workout_dates float_to_timet).
Local Abbreviation page_continues := (page_continues float_to_timet).
Local Abbreviation page_returns := (page_returns float_to_timet).

Implicit Types (w : World) (acc ws : list workout) (p q k : nat).

Lemma pages_ticks k w : pages (ticks k w) = pages w.
Proof. induction k as [|k IH]; [done|]. exact IH. Qed.

Lemma utc_dates_ticks k w : utc_dates (ticks k w) = utc_dates w.
Proof. induction k as [|k IH]; [done|]. exact IH. Qed.

Lemma clock_reads_ticks k w : clock_reads (ticks k w) = (clock_reads w + k)%nat.
Proof.
  induction k as [|k IH]; [simpl; lia|].
  change (clock_reads (ticks (S k) w)) with (S (clock_reads (ticks k w))).
  rewrite IH. lia.
Qed.

Lemma next_today_ticks k w : next_today (ticks k w) = today_at w k.
Proof.
  unfold next_today, today_at.
  by rewrite utc_dates_ticks, clock_reads_ticks.
Qed.

Lemma valid_today_at w k : valid_clock w → valid_date (today_at w k).
Proof. intros Hclock. apply Hclock. Qed.

(** One iteration of the [while True] loop. *)
Lemma fetch_loop_step fuel acc q w :
  fetch_loop (S fuel) acc q w =
  if negb (status_code (pages w q) =? 200) then
    Some (Raise (HTTPException 500 (fetch_failure_detail q)), w)
  else
    match data (pages w q) with
    | [] => Some (Ok acc, w)
    | _ :: _ =>
        match workout_dates (acc ++ data (pages w q)) with
        | Raise e => Some (Raise e, w)
        | Ok dates =>
            match gap_loop (next_today w) 0 dates with
            | Raise e => Some (Raise e, tick w)
            | Ok true => Some (Ok (acc ++ data (pages w q)), tick w)
            | Ok false =>
                fetch_loop fuel (acc ++ data (pages w q)) (S q) (tick w)
            end
        end
    end.
Proof.
  simpl. unfold bind at 1. unfold client_get.
  destruct (negb _); [done|].
  destruct (data (pages w q)) as [|r rs]; [done|].
  unfold bind at 1. unfold lift.
  destruct (workout_dates _) as [dates|e]; [|done].
  unfold bind at 1. unfold utcnow_date.
  unfold bind at 1. unfold lift.
  destruct (gap_loop _ _ _) as [[|]|e]; done.
Qed.

(** The state of the loop on entering the iteration for page [q], when
    every earlier page let it continue. *)
Lemma fetch_loop_at fuel q w0 :
  fetch_loop (S fuel) (pages_upto w0 q) q (ticks q w0) =
  if negb (status_code (pages w0 q) =? 200) then
    Some (Raise (HTTPException 500 (fetch_failure_detail q)), ticks q w0)
  else
    match data (pages w0 q) with
    | [] => Some (Ok (pages_upto w0 q), ticks q w0)
    | _ :: _ =>
        match workout_dates (pages_upto w0 (S q)) with
        | Raise e => Some (Raise e, ticks q w0)
        | Ok dates =>
            match gap_loop (today_at w0 q) 0 dates with
            | Raise e => Some (Raise e, ticks (S q) w0)
            | Ok true => Some (Ok (pages_upto w0 (S q)), ticks (S q) w0)
            | Ok false =>
                fetch_loop fuel (pages_upto w0 (S q)) (S q) (ticks (S q) w0)
            end
        end
    end.
Proof.
  rewrite fetch_loop_step, pages_ticks, next_today_ticks. done.
Qed.

Lemma fetch_loop_at_ok fuel q w0 :
  status_code (pages w0 q) = 200 →
  fetch_loop (S fuel) (pages_upto w0 q) q (ticks q w0) =
  match data (pages w0 q) with
  | [] => Some (Ok (pages_upto w0 q), ticks q w0)
  | _ :: _ =>
      match workout_dates (pages_upto w0 (S q)) with
      | Raise e => Some (Raise e, ticks q w0)
      | Ok dates =>
          match gap_loop (today_at w0 q) 0 dates with
          | Raise e => Some (Raise e, ticks (S q) w0)
          | Ok true => Some (Ok (pages_upto w0 (S q)), ticks (S q) w0)
          | Ok false =>
              fetch_loop fuel (pages_upto w0 (S q)) (S q) (ticks (S q) w0)
          end
      end
  end.
Proof. intros Hstatus. rewrite fetch_loop_at, Hstatus. done. Qed.

Lemma fetch_loop_continues w0 q fuel :
  valid_clock w0 → page_continues w0 q →
  fetch_loop (S fuel) (pages_upto w0 q) q (ticks q w0) =
  fetch_loop fuel (pages_upto w0 (S q)) (S q) (ticks (S q) w0).
Proof.
  intros Hclock (Hstatus & Hdata & dates & Hdates & Hno).
  rewrite fetch_loop_at_ok by done.
  destruct (data (pages w0 q)) as [|r rs] eqn:Hd; [done|].
  rewrite Hdates.
  apply (gap_loop_no_gap float_to_timet _ _ _ (valid_today_at w0 _ Hclock) Hdates) in Hno.
  by rewrite Hno.
Qed.

Lemma fetch_loop_skip w0 k q fuel :
  valid_clock w0 →
  (∀ q', (q ≤ q' < q + k)%nat → page_continues w0 q') →
  fetch_loop (k + fuel) (pages_upto w0 q) q (ticks q w0) =
  fetch_loop fuel (pages_upto w0 (q + k)) (q + k)%nat (ticks (q + k) w0).
Proof.
  intros Hclock. revert q. induction k as [|k IH]; intros q Hall.
  - by rewrite Nat.add_0_r.
  - change (S k + fuel)%nat with (S (k + fuel)).
    rewrite fetch_loop_continues by (try done; apply Hall; lia).
    rewrite IH by (intros q' Hq'; apply Hall; lia).
    by replace (S q + k)%nat with (q + S k)%nat by lia.
Qed.

Lemma fetch_loop_returns_at w0 p ws fuel :
  valid_clock w0 → page_returns w0 p ws →
  ∃ w', fetch_loop (S fuel) (pages_upto w0 p) p (ticks p w0) = Some (Ok ws, w').
Proof.
  intros Hclock [Hstatus Hstop]. rewrite fetch_loop_at_ok by done.
  destruct Hstop as [[Hempty ->]|(Hdata & -> & dates & Hdates & Hgap)].
  - rewrite Hempty. by eexists.
  - destruct (data (pages w0 p)) as [|r rs] eqn:Hd; [done|].
    rewrite Hdates.
    apply (gap_loop_gap float_to_timet _ _ _ (valid_today_at w0 _ Hclock) Hdates) in Hgap.
    rewrite Hgap. by eexists.
Qed.

Lemma fetch_loop_returned w0 fuel q ws w' :
  valid_clock w0 →
  fetch_loop fuel (pages_upto w0 q) q (ticks q w0) = Some (Ok ws, w') →
  ∃ p, (q ≤ p < q + fuel)%nat ∧
       (∀ q', (q ≤ q' < p)%nat → page_continues w0 q') ∧
       page_returns w0 p ws.
Proof.
  intros Hclock. revert q. induction fuel as [|fuel IH]; intros q; [done|].
  destruct (decide (status_code (pages w0 q) = 200)) as [Hstatus|Hstatus].
  2: { rewrite fetch_loop_at.
       by destruct (Z.eqb_spec (status_code (pages w0 q)) 200). }
  rewrite fetch_loop_at_ok by done.
  destruct (data (pages w0 q)) as [|r rs] eqn:Hd.
  - intros [= <- _]. exists q. split; [lia|]. split; [intros; lia|].
    split; [done|]. left. by rewrite Hd.
  - destruct (workout_dates (pages_upto w0 (S q))) as [dates|e] eqn:Hdates;
      [|done].
    destruct (gap_loop (today_at w0 q) 0 dates) as [[|]|e] eqn:Hgap; [| |done].
    + intros [= <- _]. exists q. split; [lia|]. split; [intros; lia|].
      split; [done|]. right. split; [by rewrite Hd|]. split; [done|].
      exists dates. split; [done|].
      by apply (gap_loop_gap float_to_timet _ _ _ (valid_today_at w0 _ Hclock) Hdates).
    + intros Hrest. apply IH in Hrest as (p & Hp & Hall & Hret).
      exists p. split; [lia|]. split; [|done].
      intros q' Hq'. destruct (decide (q' = q)) as [->|]; [|apply Hall; lia].
      split; [done|]. split; [by rewrite Hd|]. exists dates. split; [done|].
      by apply (gap_loop_no_gap float_to_timet _ _ _ (valid_today_at w0 _ Hclock) Hdates).
Qed.

End FetcherRuns.

(** ** Claims about the fetcher *)



(** C4 does not hold of the fetcher.  A record whose start time is
    present but not a number passes the filter of line 116, which only
    tests for the key, and [utcfromtimestamp] then raises [TypeError]: the
    whole fetch fails.  The calculator, whose test on line 67 is
    [isinstance(ts, int)], skips the same record and returns 0. *)
Theorem fetcher_raises_on_non_integer_start_time
    (float_to_timet : float -> result Z) :
  let world :=
    world_on day_2026_11_04
      (serve [ {| status_code := 200; data := [workout_with VNone] |} ]) in
  fetch_workouts_for_streak float_to_timet 3 world = Some (Raise TypeError, world)
  ∧ calculate_weekly_streak 3 [workout_with VNone] world = Some (Ok 0, world).
Proof. split; reflexivity. Qed.

(** ** The streak bar *)

(** C6.  For a non-negative streak [s] and a maximum width [m] the
    renderer returns [s] markers and no suffix when [s <= m], and [m]
    markers (none when [m] is negative) followed by a space, a plus sign
    and [s - m] in decimal when [s > m].  Streak 5 with the default
    maximum 20 gives five markers, streak 25 gives twenty markers and
    [" +5"].  The renderer is a total function of its two arguments. *)
Theorem generate_streak_bar_renders (s m : Z) :
  0 ≤ s →
  generate_streak_bar s m = streak_bar_spec s m
  ∧ (s ≤ m → generate_streak_bar s m = str_repeat "●" (Z.to_nat s))
  ∧ (m < s →
     generate_streak_bar s m
     = str_repeat "●" (Z.to_nat m) +:+ " +" +:+ pretty (s - m))
  ∧ generate_streak_bar 5 default_max_units = "●●●●●"
  ∧ generate_streak_bar 25 default_max_units = "●●●●●●●●●●●●●●●●●●●● +5".
Proof.
  intros Hs. unfold generate_streak_bar, streak_bar_spec, str_mul.
  repeat split.
  - destruct (Z.leb_spec s m) as [Hle|Hgt].
    + rewrite Z.min_l by done.
      destruct (Z.ltb_spec m s); [lia|].
      induction (Z.to_nat s) as [|n IH]; [done|]. simpl.
      unfold "+:+" in *. simpl. by rewrite <- IH.
    + rewrite Z.min_r by lia. by destruct (Z.ltb_spec m s); [|lia].
  - intros Hle. by destruct (Z.leb_spec s m); [|lia].
  - intros Hgt. by destruct (Z.leb_spec s m); [lia|].
Qed.

Lemma generate_streak_bar_renders_witness :
  generate_streak_bar 25 20 = streak_bar_spec 25 20
  ∧ (25 ≤ 20 → generate_streak_bar 25 20 = str_repeat "●" (Z.to_nat 25))
  ∧ (20 < 25 →
     generate_streak_bar 25 20
     = str_repeat "●" (Z.to_nat 20) +:+ " +" +:+ pretty (25 - 20))
  ∧ generate_streak_bar 5 default_max_units = "●●●●●"
  ∧ generate_streak_bar 25 default_max_units = "●●●●●●●●●●●●●●●●●●●● +5".
Proof. apply (generate_streak_bar_renders 25 20); lia. Defined.

(** ** Sample runs of the fetcher *)

Lemma world_on_valid today srv :
  valid_date today → valid_clock (world_on today srv).
Proof. intros Htoday n. exact Htoday. Qed.

Lemma day_2026_11_04_valid : valid_date day_2026_11_04.
Proof. unfold valid_date, day_2026_11_04, datetime.MAXORDINAL. lia. Qed.

(** The specification's scenario: the fetcher stops after the page that
    brings the gap and returns the records of the first two pages only. *)
Example fetch_three_pages :
  fst <$> fetch_workouts_for_streak no_floats 10 three_pages
  = Some (Ok (pages_upto three_pages 2)).
Proof. vm_compute. reflexivity. Qed.


Lemma failing_second_page_continues :
  ∀ q, (q < 1)%nat → page_continues no_floats failing_second_page q.
Proof.
  intros q Hq. assert (q = 0%nat) as -> by lia.
  split; [reflexivity|]. split; [discriminate|].
  exists [day_2026_11_04; day_2026_11_04 - 1]. split; [vm_compute; reflexivity|].
  intros [|[|i]] d Hi; simpl in Hi; [| |done]; by injection Hi as <-.
Defined.


(** * Further properties *)

(** ** The ISO calendar *)

Section Calendar.

Import datetime.

Lemma days_before_year_step y :
  days_before_year (y + 1) - days_before_year y = 365 ∨
  days_before_year (y + 1) - days_before_year y = 366.
Proof.
  unfold days_before_year. cbv zeta.
  Z.div_mod_to_equations. lia.
Qed.

Lemma days_before_year_mono y1 y2 :
  y1 ≤ y2 → days_before_year y1 ≤ days_before_year y2.
Proof.
  unfold days_before_year. cbv zeta. intros. Z.div_mod_to_equations. lia.
Qed.

(** [ord2year] finds the year a day lies in. *)
Lemma ord2year_spec n :
  days_before_year (ord2year n) < n ≤ days_before_year (ord2year n + 1).
Proof.
  unfold ord2year, days_before_year. cbv zeta.
  destruct (Z.eqb_spec ((n - 1) mod 146097 mod 36524 mod 1461 / 365) 4);
  destruct (Z.eqb_spec ((n - 1) mod 146097 / 36524) 4); simpl;
  Z.div_mod_to_equations; lia.
Qed.

Lemma ord2year_unique d y :
  days_before_year y < d ≤ days_before_year (y + 1) → ord2year d = y.
Proof.
  intros Hy. pose proof (ord2year_spec d) as Hd.
  destruct (Z.lt_trichotomy (ord2year d) y) as [Hlt|[Heq|Hgt]]; [|done|].
  - pose proof (days_before_year_mono (ord2year d + 1) y). lia.
  - pose proof (days_before_year_mono (y + 1) (ord2year d)). lia.
Qed.

(** Week 1 starts on a Monday within three days of January 1st. *)
Lemma isoweek1monday_spec y :
  ymd2ord_jan1 y - 3 ≤ isoweek1monday y ≤ ymd2ord_jan1 y + 3 ∧
  (isoweek1monday y + 6) mod 7 = 0.
Proof.
  unfold isoweek1monday. cbv zeta.
  destruct (Z.ltb_spec 3 ((ymd2ord_jan1 y + 6) mod 7));
    Z.div_mod_to_equations; lia.
Qed.

(** An ISO year has 52 or 53 weeks. *)
Lemma isoweek1monday_step y :
  isoweek1monday (y + 1) - isoweek1monday y = 364 ∨
  isoweek1monday (y + 1) - isoweek1monday y = 371.
Proof.
  pose proof (isoweek1monday_spec y) as [H1 H2].
  pose proof (isoweek1monday_spec (y + 1)) as [H3 H4].
  pose proof (days_before_year_step y) as H5.
  unfold ymd2ord_jan1 in *.
  Z.div_mod_to_equations. lia.
Qed.

Lemma iso_week_range d : 1 ≤ (iso_week d).2 ≤ 53.
Proof.
  unfold iso_week, isocalendar. cbv zeta.
  pose proof (ord2year_spec d) as Hy.
  set (year := ord2year d) in *.
  pose proof (isoweek1monday_spec year) as [H1 _].
  pose proof (isoweek1monday_spec (year - 1)) as [H2 _].
  pose proof (isoweek1monday_spec (year + 1)) as [H3 _].
  pose proof (isoweek1monday_step year) as H4.
  pose proof (isoweek1monday_step (year - 1)) as H5.
  replace (year - 1 + 1) with year in H5 by lia.
  pose proof (days_before_year_step year) as H6.
  pose proof (days_before_year_step (year - 1)) as H7.
  replace (year - 1 + 1) with year in H7 by lia.
  unfold ymd2ord_jan1 in *.
  destruct (Z.ltb_spec ((d - isoweek1monday year) / 7) 0).
  - simpl. Z.div_mod_to_equations. lia.
  - destruct (Z.leb_spec 52 ((d - isoweek1monday year) / 7));
    destruct (Z.leb_spec (isoweek1monday (year + 1)) d); simpl;
      try lia; Z.div_mod_to_equations; lia.
Qed.

(** The ISO week of a date, as an interval of days. *)
Lemma iso_week_interval d y w :
  iso_week d = (y, w) →
  1 ≤ w ≤ 53 ∧
  isoweek1monday y + 7 * (w - 1) ≤ d < isoweek1monday y + 7 * w ∧
  d < isoweek1monday (y + 1).
Proof.
  pose proof (iso_week_range d) as Hr.
  intros Hd. rewrite Hd in Hr. simpl in Hr. split; [done|].
  revert Hd. unfold iso_week, isocalendar. cbv zeta.
  pose proof (ord2year_spec d) as Hy.
  set (year := ord2year d) in *.
  pose proof (isoweek1monday_spec year) as [H1 _].
  pose proof (isoweek1monday_spec (year + 1)) as [H3 _].
  pose proof (isoweek1monday_step year) as H4.
  pose proof (isoweek1monday_step (year - 1)) as H5.
  replace (year - 1 + 1) with year in H5 by lia.
  unfold ymd2ord_jan1 in *.
  destruct (Z.ltb_spec ((d - isoweek1monday year) / 7) 0).
  - intros [= <- <-]. replace (year - 1 + 1) with year by lia.
    Z.div_mod_to_equations. lia.
  - destruct (Z.leb_spec 52 ((d - isoweek1monday year) / 7));
    destruct (Z.leb_spec (isoweek1monday (year + 1)) d); simpl;
      intros [= <- <-].
    + pose proof (isoweek1monday_step (year + 1)) as H6.
      Z.div_mod_to_equations. lia.
    + Z.div_mod_to_equations. lia.
    + Z.div_mod_to_equations. lia.
    + Z.div_mod_to_equations. lia.
Qed.

Lemma iso_week_of_interval d y w :
  1 ≤ w →
  isoweek1monday y + 7 * (w - 1) ≤ d < isoweek1monday y + 7 * w →
  d < isoweek1monday (y + 1) →
  iso_week d = (y, w).
Proof.
  intros Hw Hd Hnext.
  pose proof (isoweek1monday_spec y) as [H1 _].
  pose proof (isoweek1monday_spec (y + 1)) as [H2 _].
  pose proof (isoweek1monday_spec (y - 1)) as [H0 _].
  pose proof (isoweek1monday_spec (y + 2)) as [H3 _].
  pose proof (isoweek1monday_step y) as S1.
  pose proof (isoweek1monday_step (y - 1)) as S0.
  pose proof (isoweek1monday_step (y + 1)) as S2.
  replace (y - 1 + 1) with y in S0 by lia.
  replace (y + 1 + 1) with (y + 2) in S2 by lia.
  pose proof (days_before_year_step y) as D1.
  pose proof (days_before_year_step (y - 1)) as D0.
  pose proof (days_before_year_step (y + 1)) as D2.
  replace (y - 1 + 1) with y in D0 by lia.
  replace (y + 1 + 1) with (y + 2) in D2 by lia.
  unfold ymd2ord_jan1 in *.
  assert (ord2year d = y - 1 ∧ d ≤ days_before_year y
          ∨ ord2year d = y ∧ days_before_year y < d ≤ days_before_year (y + 1)
          ∨ ord2year d = y + 1 ∧ days_before_year (y + 1) < d) as Hyear.
  { destruct (Z.le_gt_cases d (days_before_year y)).
    - left. split; [|done]. apply ord2year_unique.
      replace (y - 1 + 1) with y by lia. lia.
    - destruct (Z.le_gt_cases d (days_before_year (y + 1))).
      + right. left. split; [|lia]. apply ord2year_unique. lia.
      + right. right. split; [|done]. apply ord2year_unique.
        replace (y + 1 + 1) with (y + 2) by lia. lia. }
  unfold iso_week, isocalendar. cbv zeta.
  destruct Hyear as [[-> Hc]|[[-> Hc]|[-> Hc]]].
  - replace (y - 1 + 1) with y by lia.
    destruct (Z.ltb_spec ((d - isoweek1monday (y - 1)) / 7) 0);
      [exfalso; Z.div_mod_to_equations; lia|].
    destruct (Z.leb_spec 52 ((d - isoweek1monday (y - 1)) / 7));
      [|exfalso; Z.div_mod_to_equations; lia].
    destruct (Z.leb_spec (isoweek1monday y) d); [|exfalso; lia]. simpl.
    f_equal. Z.div_mod_to_equations. lia.
  - destruct (Z.ltb_spec ((d - isoweek1monday y) / 7) 0);
      [exfalso; Z.div_mod_to_equations; lia|].
    destruct (Z.leb_spec 52 ((d - isoweek1monday y) / 7));
    destruct (Z.leb_spec (isoweek1monday (y + 1)) d); simpl;
      try (exfalso; lia); f_equal; Z.div_mod_to_equations; lia.
  - replace (y + 1 - 1) with y by lia.
    destruct (Z.ltb_spec ((d - isoweek1monday (y + 1)) / 7) 0);
      [|exfalso; Z.div_mod_to_equations; lia].
    f_equal. Z.div_mod_to_equations. lia.
Qed.

End Calendar.

(** ** The calendar meaning of the week keys and of the walk *)

(** X1.  Two UTC dates get the same (ISO year, ISO week) key exactly when
    they lie in the same Monday-to-Sunday block of seven days (day 1 of
    the ordinal count is a Monday). *)
Theorem same_week_iff_same_monday_block (d1 d2 : Z) :
  iso_week d1 = iso_week d2 ↔ (d1 - 1) / 7 = (d2 - 1) / 7.
Proof.
  destruct (iso_week d1) as [y w] eqn:H1.
  apply iso_week_interval in H1 as (Hw & Hd1 & Hn1).
  pose proof (isoweek1monday_spec y) as [_ Hm].
  pose proof (isoweek1monday_spec (y + 1)) as [_ Hm'].
  split.
  - intros H2. symmetry in H2.
    apply iso_week_interval in H2 as (_ & Hd2 & _).
    Z.div_mod_to_equations. lia.
  - intros Hblock. symmetry. apply iso_week_of_interval; [lia| |];
      Z.div_mod_to_equations; lia.
Qed.

Lemma back_within_year (k : nat) y w :
  Z.of_nat k < w → back k (y, w) = (y, w - Z.of_nat k).
Proof.
  induction k as [|k IH]; intros Hk.
  - simpl. f_equal. lia.
  - change (back (S k) (y, w)) with (step_back (back k (y, w))).
    rewrite IH by lia. unfold step_back.
    destruct (Z.eqb_spec (w - Z.of_nat k) 1); [lia|]. f_equal. lia.
Qed.

(** X2.  Within the current ISO year the walk follows the calendar: as
    long as fewer steps are taken than the current week number, [k] steps
    back reach the week of the day [7 * k] days earlier. *)
Theorem walk_follows_calendar_within_year (d : Z) (k : nat) :
  Z.of_nat k < (iso_week d).2 →
  back k (iso_week d) = iso_week (d - 7 * Z.of_nat k).
Proof.
  destruct (iso_week d) as [y w] eqn:Hd. simpl. intros Hk.
  rewrite back_within_year by done.
  apply iso_week_interval in Hd as (Hw & Hd & Hnext).
  symmetry. apply iso_week_of_interval; lia.
Qed.

Lemma walk_follows_calendar_within_year_witness :
  back 44 (iso_week day_2026_11_04) = iso_week (day_2026_11_04 - 7 * Z.of_nat 44).
Proof.
  apply (walk_follows_calendar_within_year day_2026_11_04 44).
  vm_compute. reflexivity.
Defined.

(** X3.  From week 1 of a year the walk steps to week 52 of the year
    before.  When that year has 52 weeks this is the week seven days
    earlier; when it has 53 weeks the week seven days earlier is week 53,
    and the walk skips it and lands on the week fourteen days earlier. *)
Theorem walk_across_new_year (d y : Z) :
  iso_week d = (y, 1) →
  (iso_week (d - 7) = (y - 1, 52) ∧ step_back (y, 1) = iso_week (d - 7)) ∨
  (iso_week (d - 7) = (y - 1, 53) ∧ step_back (y, 1) = iso_week (d - 14)).
Proof.
  intros Hd. apply iso_week_interval in Hd as (_ & Hd & Hnext).
  pose proof (isoweek1monday_step (y - 1)) as [Hlen|Hlen];
    replace (y - 1 + 1) with y in Hlen by lia.
  - left. assert (iso_week (d - 7) = (y - 1, 52)) as ->; [|done].
    apply iso_week_of_interval; [lia|lia|].
    replace (y - 1 + 1) with y by lia. lia.
  - right. split.
    + apply iso_week_of_interval; [lia|lia|].
      replace (y - 1 + 1) with y by lia. lia.
    + symmetry. apply iso_week_of_interval; [lia|lia|].
      replace (y - 1 + 1) with y by lia. lia.
Qed.

Lemma walk_across_new_year_witness :
  (iso_week (737794 - 7) = (2021 - 1, 52)
   ∧ step_back (2021, 1) = iso_week (737794 - 7)) ∨
  (iso_week (737794 - 7) = (2021 - 1, 53)
   ∧ step_back (2021, 1) = iso_week (737794 - 14)).
Proof.
  apply (walk_across_new_year 737794 2021). reflexivity.
Defined.

(** ** Which records the calculator accepts, and what it counts *)

Section CalculatorFurther.

Implicit Types (w r : workout) (workouts ws : list workout)
  (weeks acc : gset (Z * Z)) (world : World).

Lemma date_of_timet_is_Ok ts :
  (∃ d, datetime.date_of_timet ts = Ok d) ↔ MIN_TIMESTAMP ≤ ts ≤ MAX_TIMESTAMP.
Proof.
  unfold datetime.date_of_timet, datetime.EPOCH_ORDINAL, datetime.MAXORDINAL,
    MIN_TIMESTAMP, MAX_TIMESTAMP.
  destruct (Z.ltb_spec ts (- 2 ^ 63)); [split; [by intros [? ?]|lia]|].
  destruct (Z.leb_spec (2 ^ 63) ts); [split; [by intros [? ?]|lia]|]. simpl.
  destruct (Z.leb_spec 1 (719163 + ts / 86400));
  destruct (Z.leb_spec (719163 + ts / 86400) 3652059); simpl;
    (split; [intros [? ?]; try done|intros ?; try by eexists]);
    Z.div_mod_to_equations; lia.
Qed.

Lemma workout_week_is_Ok w :
  (∃ o, workout_week w = Ok o) ↔ record_accepted w.
Proof.
  destruct w as [fields|]; simpl; [|split; [by intros [? ?]|done]].
  destruct (as_int _) as [ts|]; [|split; [done|by eexists]].
  rewrite <- date_of_timet_is_Ok.
  destruct (datetime.date_of_timet ts) as [d|e]; simpl.
  - split; by eexists.
  - split; by intros [? ?].
Qed.

(** The loop raises what its first rejected record raises. *)
Lemma collect_weeks_Raise workouts acc e :
  collect_weeks workouts acc = Raise e →
  ∃ w, w ∈ workouts ∧ workout_week w = Raise e.
Proof.
  revert acc. induction workouts as [|w rest IH]; intros acc; simpl; [done|].
  rewrite add_workout_week_spec.
  destruct (workout_week w) as [o|e'] eqn:Hw; simpl.
  - intros Hrest. apply IH in Hrest as (w' & Hin & Hw').
    exists w'. split; [by apply list_elem_of_further|done].
  - intros [= <-]. exists w. split; [apply list_elem_of_here|done].
Qed.

Lemma collect_weeks_accepted workouts :
  (∃ weeks, collect_weeks workouts ∅ = Ok weeks) ↔
  Forall record_accepted workouts.
Proof.
  rewrite collect_weeks_is_Ok, Forall_forall.
  split; intros H w Hw; apply workout_week_is_Ok, H, Hw.
Qed.

Lemma collect_weeks_has workouts weeks yw :
  collect_weeks workouts ∅ = Ok weeks →
  yw ∈ weeks ↔ has_workout_in workouts yw.
Proof.
  intros Hrun. rewrite (collect_weeks_elem _ _ _ Hrun yw).
  split; [intros [Hin|?]; [by apply not_elem_of_empty in Hin|done]|by right].
Qed.

(** The value the calculator returns, as a run of the loop over the
    active weeks; the loop is entered at least once. *)
Lemma calculate_value fuel workouts world weeks :
  (0 < fuel)%nat →
  collect_weeks workouts ∅ = Ok weeks →
  fst <$> calculate_weekly_streak fuel workouts world =
  Ok <$> streak_loop fuel weeks (iso_week (next_today world)) 0.
Proof.
  intros Hfuel Hrun. destruct (decide (weeks = ∅)) as [->|Hne].
  - rewrite (calculate_no_weeks _ _ _ Hrun).
    destruct fuel as [|fuel]; [lia|]. simpl.
    by rewrite decide_False by apply not_elem_of_empty.
  - rewrite (calculate_walks _ _ _ _ Hrun Hne).
    by destruct (streak_loop _ _ _ _).
Qed.

(** Two sets that agree along the walk give the same count. *)
Lemma streak_loop_agree fuel weeks1 weeks2 yw streak :
  (∀ k : nat, (k < fuel)%nat → back k yw ∈ weeks1 ↔ back k yw ∈ weeks2) →
  streak_loop fuel weeks1 yw streak = streak_loop fuel weeks2 yw streak.
Proof.
  revert yw streak. induction fuel as [|fuel IH]; intros yw streak Hagree;
    [done|]. simpl.
  pose proof (Hagree 0%nat ltac:(lia)) as H0. simpl in H0.
  destruct (decide (yw ∈ weeks1)) as [Hin|Hout].
  - rewrite decide_True by by apply H0. apply IH.
    intros k Hk. rewrite <- !back_S. apply Hagree. lia.
  - by rewrite decide_False by by rewrite <- H0.
Qed.

Lemma collect_weeks_app ws1 ws2 acc :
  collect_weeks (ws1 ++ ws2) acc =
  try weeks := collect_weeks ws1 acc in collect_weeks ws2 weeks.
Proof.
  revert acc. induction ws1 as [|w rest IH]; intros acc; simpl; [done|].
  destruct (add_workout_week acc w) as [weeks|e]; simpl; [apply IH|done].
Qed.

(** Whether the loop raises, and what, does not depend on the set it
    starts from. *)
Lemma collect_weeks_Raise_any workouts acc acc' e :
  collect_weeks workouts acc = Raise e → collect_weeks workouts acc' = Raise e.
Proof.
  revert acc acc'. induction workouts as [|w rest IH]; intros acc acc'; simpl;
    [done|].
  rewrite !add_workout_week_spec.
  destruct (workout_week w) as [o|e']; simpl; [apply IH|done].
Qed.

(** A record whose week the walk never reaches leaves the value
    unchanged, wherever it stands in the list. *)
Lemma record_off_the_walk fuel ws1 r ws2 world yw :
  (0 < fuel)%nat →
  workout_week r = Ok (Some yw) →
  (∀ k : nat, back k (iso_week (next_today world)) ≠ yw) →
  fst <$> calculate_weekly_streak fuel (ws1 ++ r :: ws2) world =
  fst <$> calculate_weekly_streak fuel (ws1 ++ ws2) world.
Proof.
  intros Hfuel Hr Hoff.
  destruct (collect_weeks (ws1 ++ ws2) ∅) as [weeks|e] eqn:Hrun.
  - assert (∃ weeks', collect_weeks (ws1 ++ r :: ws2) ∅ = Ok weeks')
      as [weeks' Hrun'].
    { apply collect_weeks_is_Ok. intros w Hw.
      apply elem_of_app in Hw as [Hw|Hw].
      - apply (proj1 (collect_weeks_is_Ok (ws1 ++ ws2) ∅)); [by eauto|].
        apply elem_of_app. by left.
      - apply elem_of_cons in Hw as [->|Hw]; [by eauto|].
        apply (proj1 (collect_weeks_is_Ok (ws1 ++ ws2) ∅)); [by eauto|].
        apply elem_of_app. by right. }
    rewrite (calculate_value _ _ _ _ Hfuel Hrun).
    rewrite (calculate_value _ _ _ _ Hfuel Hrun'). f_equal.
    apply streak_loop_agree. intros k _.
    rewrite (collect_weeks_has _ _ _ Hrun), (collect_weeks_has _ _ _ Hrun').
    split; intros (w & Hw & Hyw); exists w; (split; [|done]).
    + apply elem_of_app in Hw as [Hw|Hw]; apply elem_of_app; [by left|].
      apply elem_of_cons in Hw as [->|Hw]; [|by right].
      rewrite Hr in Hyw. injection Hyw as Heq. by destruct (Hoff k).
    + apply elem_of_app in Hw as [Hw|Hw]; apply elem_of_app; [by left|].
      right. by apply list_elem_of_further.
  - assert (collect_weeks (ws1 ++ r :: ws2) ∅ = Raise e) as Hrun'.
    { rewrite collect_weeks_app in *.
      destruct (collect_weeks ws1 ∅) as [weeks1|e1]; [|done]. simpl in *.
      rewrite add_workout_week_spec, Hr. simpl.
      by apply (collect_weeks_Raise_any _ weeks1). }
    by rewrite (calculate_raises _ _ _ _ Hrun), (calculate_raises _ _ _ _ Hrun').
Qed.

Lemma back_week_at_most_52 (k : nat) (y wk : Z) :
  1 ≤ wk ≤ 53 → 1 ≤ (back (S k) (y, wk)).2 ≤ 52.
Proof.
  intros Hw. induction k as [|k IH].
  - unfold back. simpl. destruct (Z.eqb_spec wk 1); simpl; lia.
  - change (back (S (S k)) (y, wk)) with (step_back (back (S k) (y, wk))).
    destruct (back (S k) (y, wk)) as [y' wk']. simpl in IH. unfold step_back.
    destruct (Z.eqb_spec wk' 1); simpl; lia.
Qed.

End CalculatorFurther.

(** X4.  Given a loop bound above the number of records, the calculator
    returns a streak exactly when every record is a [dict] whose start
    time, if it is an [int], is a timestamp of the years 1..9999.
    Otherwise it raises what line 66 or line 68 raises on one of the
    other records, and it does so before reading the clock. *)
Theorem calculator_succeeds_iff_records_accepted
    (fuel : nat) (workouts : list workout) (world : World) :
  (length workouts < fuel)%nat →
  ((∃ streak world',
      calculate_weekly_streak fuel workouts world = Some (Ok streak, world'))
   ↔ Forall record_accepted workouts) ∧
  (¬ Forall record_accepted workouts →
   ∃ e w, w ∈ workouts ∧ ¬ record_accepted w ∧ workout_week w = Raise e ∧
          calculate_weekly_streak fuel workouts world = Some (Raise e, world)).
Proof.
  intros Hfuel.
  destruct (collect_weeks workouts ∅) as [weeks|e] eqn:Hrun.
  - assert (Forall record_accepted workouts) as Hall
      by (apply collect_weeks_accepted; by exists weeks).
    split; [|done]. split; [done|]. intros _.
    destruct (decide (weeks = ∅)) as [->|Hne].
    + exists 0, world. by apply calculate_no_weeks.
    + rewrite (calculate_walks _ _ _ _ Hrun Hne).
      pose proof (collect_weeks_size _ _ _ Hrun) as Hsize.
      rewrite size_empty in Hsize.
      destruct (streak_loop_total weeks (iso_week (next_today world)))
        as (n & Hn & _ & _ & Hloop).
      rewrite (Hloop fuel 0) by lia. by eexists _, _.
  - rewrite (calculate_raises _ _ _ _ Hrun).
    assert (¬ Forall record_accepted workouts) as Hnot.
    { intros Hall. apply collect_weeks_accepted in Hall as [weeks Hok].
      by rewrite Hok in Hrun. }
    split; [split; [by intros (? & ? & ?)|done]|]. intros _.
    apply collect_weeks_Raise in Hrun as (w & Hin & Hw).
    exists e, w. split; [done|]. split; [|done].
    intros Hacc. apply workout_week_is_Ok in Hacc as [o Ho].
    by rewrite Ho in Hw.
Qed.

Lemma calculator_succeeds_iff_records_accepted_witness :
  ((∃ streak world',
      calculate_weekly_streak 3 [workout_at 0; WDict ∅]
        (quiet_world day_1970_01_01) = Some (Ok streak, world'))
   ↔ Forall record_accepted [workout_at 0; WDict ∅]) ∧
  (¬ Forall record_accepted [workout_at 0; WDict ∅] →
   ∃ e w, w ∈ [workout_at 0; WDict ∅] ∧ ¬ record_accepted w ∧
          workout_week w = Raise e ∧
          calculate_weekly_streak 3 [workout_at 0; WDict ∅]
            (quiet_world day_1970_01_01)
          = Some (Raise e, quiet_world day_1970_01_01)).
Proof.
  apply (calculator_succeeds_iff_records_accepted 3 [workout_at 0; WDict ∅]
           (quiet_world day_1970_01_01)).
  simpl. lia.
Defined.

(** X5.  A returned streak is the number of weeks the backward walk from
    the current week passes through before it meets a week without a
    record: each of the first [streak] weeks of the walk holds a record,
    and the next one holds none. *)
Theorem streak_counts_weeks_on_the_walk
    (fuel : nat) (workouts : list workout) (world world' : World) (streak : Z) :
  calculate_weekly_streak fuel workouts world = Some (Ok streak, world') →
  ∃ n : nat,
    streak = Z.of_nat n ∧
    (∀ i : nat, (i < n)%nat →
       has_workout_in workouts (back i (iso_week (next_today world)))) ∧
    ¬ has_workout_in workouts (back n (iso_week (next_today world))).
Proof.
  destruct (collect_weeks workouts ∅) as [weeks|e] eqn:Hrun;
    [|by rewrite (calculate_raises _ _ _ _ Hrun)].
  destruct (decide (weeks = ∅)) as [->|Hne].
  - rewrite (calculate_no_weeks _ _ _ Hrun). intros [= <- _].
    exists 0%nat. split; [done|]. split; [intros; lia|].
    rewrite <- (collect_weeks_has _ _ _ Hrun). apply not_elem_of_empty.
  - rewrite (calculate_walks _ _ _ _ Hrun Hne).
    destruct (streak_loop _ _ _ _) as [r|] eqn:Hloop; [|done].
    intros [= <- _].
    apply streak_loop_Some in Hloop as (n & _ & -> & Hall & Hstop).
    exists n. split; [lia|]. split.
    + intros i Hi. apply (collect_weeks_has _ _ _ Hrun). by apply Hall.
    + by rewrite <- (collect_weeks_has _ _ _ Hrun).
Qed.

Lemma streak_counts_weeks_on_the_walk_witness :
  ∃ n : nat,
    2 = Z.of_nat n ∧
    (∀ i : nat, (i < n)%nat →
       has_workout_in [workout_at (-604800); workout_at 0]
         (back i (iso_week (next_today (quiet_world day_1970_01_01))))) ∧
    ¬ has_workout_in [workout_at (-604800); workout_at 0]
        (back n (iso_week (next_today (quiet_world day_1970_01_01)))).
Proof.
  apply (streak_counts_weeks_on_the_walk 5
           [workout_at (-604800); workout_at 0]
           (quiet_world day_1970_01_01)
           (tick (quiet_world day_1970_01_01)) 2).
  vm_compute. reflexivity.
Defined.

(** X6.  A returned streak is 0 exactly when no record starts in the
    current ISO week, whatever the earlier weeks hold. *)
Theorem streak_zero_iff_no_workout_this_week
    (fuel : nat) (workouts : list workout) (world world' : World) (streak : Z) :
  calculate_weekly_streak fuel workouts world = Some (Ok streak, world') →
  streak = 0 ↔ ¬ has_workout_in workouts (iso_week (next_today world)).
Proof.
  intros Hrun.
  destruct (collect_weeks workouts ∅) as [weeks|e] eqn:Hw;
    [|by rewrite (calculate_raises _ _ _ _ Hw) in Hrun].
  rewrite <- (collect_weeks_has _ _ _ Hw).
  destruct (decide (weeks = ∅)) as [->|Hne].
  - rewrite (calculate_no_weeks _ _ _ Hw) in Hrun. injection Hrun as <- _.
    split; [intros _; apply not_elem_of_empty|done].
  - rewrite (calculate_walks _ _ _ _ Hw Hne) in Hrun.
    destruct (streak_loop _ _ _ _) as [r|] eqn:Hloop; [|done].
    injection Hrun as <- _.
    apply streak_loop_Some in Hloop as (n & _ & -> & Hall & Hstop).
    destruct n as [|n].
    + split; [by intros _|intros _; lia].
    + split; [lia|]. intros Hout. exfalso. apply Hout.
      apply (Hall 0%nat). lia.
Qed.

Lemma streak_zero_iff_no_workout_this_week_witness :
  0 = 0 ↔ ¬ has_workout_in [workout_at 0]
              (iso_week (next_today (quiet_world day_2026_11_04))).
Proof.
  apply (streak_zero_iff_no_workout_this_week 5 [workout_at 0]
           (quiet_world day_2026_11_04) (tick (quiet_world day_2026_11_04)) 0).
  vm_compute. reflexivity.
Defined.

(** X7.  The walk only goes backward: a record that starts in a week
    after the current one (a start time in the future) never changes the
    calculator's result, wherever it stands in the list. *)
Theorem later_weeks_never_count
    (fuel : nat) (ws1 ws2 : list workout) (r : workout) (yw : Z * Z)
    (world : World) :
  (0 < fuel)%nat →
  workout_week r = Ok (Some yw) →
  week_lt (iso_week (next_today world)) yw →
  fst <$> calculate_weekly_streak fuel (ws1 ++ r :: ws2) world =
  fst <$> calculate_weekly_streak fuel (ws1 ++ ws2) world.
Proof.
  intros Hfuel Hr Hlater. apply (record_off_the_walk _ _ _ _ _ yw); try done.
  intros k Heq. destruct k as [|k].
  - unfold back in Heq. simpl in Heq. rewrite Heq in Hlater.
    by apply week_lt_irrefl in Hlater.
  - pose proof (back_lt 0 (S k) (iso_week (next_today world)) ltac:(lia)) as Hlt.
    rewrite Heq in Hlt. unfold back in Hlt at 1. simpl in Hlt.
    by apply (week_lt_irrefl yw), (week_lt_trans _ (iso_week (next_today world))).
Qed.

Lemma later_weeks_never_count_witness :
  fst <$> calculate_weekly_streak 3
            ([workout_at 0] ++ workout_at (midnight day_2026_11_04) :: [])
            (quiet_world day_1970_01_01) =
  fst <$> calculate_weekly_streak 3 ([workout_at 0] ++ [])
            (quiet_world day_1970_01_01).
Proof.
  apply (later_weeks_never_count 3 [workout_at 0] []
           (workout_at (midnight day_2026_11_04)) (2026, 45)
           (quiet_world day_1970_01_01)).
  - lia.
  - reflexivity.
  - left. vm_compute. reflexivity.
Defined.

(** X8.  The walk never visits week 53 of an earlier year (from week 1 it
    steps to week 52): a record that starts in a week 53 changes the
    calculator's result only if that week is the current week. *)
Theorem week_53_counts_only_as_current_week
    (fuel : nat) (ws1 ws2 : list workout) (r : workout) (y : Z)
    (world : World) :
  (0 < fuel)%nat →
  workout_week r = Ok (Some (y, 53)) →
  iso_week (next_today world) ≠ (y, 53) →
  fst <$> calculate_weekly_streak fuel (ws1 ++ r :: ws2) world =
  fst <$> calculate_weekly_streak fuel (ws1 ++ ws2) world.
Proof.
  intros Hfuel Hr Hcur. apply (record_off_the_walk _ _ _ _ _ (y, 53)); try done.
  intros [|k] Heq; [done|].
  pose proof (iso_week_range (next_today world)) as Hrange.
  destruct (iso_week (next_today world)) as [yc wc]. simpl in Hrange.
  pose proof (back_week_at_most_52 k yc wc Hrange) as Hle.
  rewrite Heq in Hle. simpl in Hle. lia.
Qed.

Lemma week_53_counts_only_as_current_week_witness :
  fst <$> calculate_weekly_streak 3
            ([workout_at (midnight day_2021_01_04)]
               ++ workout_at (midnight day_2020_12_31) :: [])
            (quiet_world day_2021_01_04) =
  fst <$> calculate_weekly_streak 3
            ([workout_at (midnight day_2021_01_04)] ++ [])
            (quiet_world day_2021_01_04).
Proof.
  apply (week_53_counts_only_as_current_week 3
           [workout_at (midnight day_2021_01_04)] []
           (workout_at (midnight day_2020_12_31)) 2020
           (quiet_world day_2021_01_04)).
  - lia.
  - reflexivity.
  - discriminate.
Defined.

(** X9.  The calculator's result depends only on which records occur,
    not on their order or on repetitions: when it returns a streak for a
    list, it returns the same streak, in the same final world, for any
    list with the same members. *)
Theorem order_and_repetition_do_not_matter
    (fuel : nat) (ws1 ws2 : list workout) (world world' : World) (streak : Z) :
  (∀ w, w ∈ ws1 ↔ w ∈ ws2) →
  calculate_weekly_streak fuel ws1 world = Some (Ok streak, world') →
  calculate_weekly_streak fuel ws2 world = Some (Ok streak, world').
Proof.
  intros Hsame Hrun.
  destruct (collect_weeks ws1 ∅) as [weeks1|e] eqn:H1;
    [|by rewrite (calculate_raises _ _ _ _ H1) in Hrun].
  destruct (proj2 (collect_weeks_is_Ok ws2 ∅)) as [weeks2 H2].
  { intros w Hw. apply (proj1 (collect_weeks_is_Ok ws1 ∅)); [by eauto|].
    by apply Hsame. }
  assert (weeks2 = weeks1) as ->.
  { apply set_eq. intros yw.
    rewrite (collect_weeks_has _ _ _ H1), (collect_weeks_has _ _ _ H2).
    split; intros (w & Hw & Hyw); exists w; (split; [by apply Hsame|done]). }
  destruct (decide (weeks1 = ∅)) as [->|Hne].
  - rewrite (calculate_no_weeks _ _ _ H1) in Hrun.
    by rewrite (calculate_no_weeks _ _ _ H2).
  - rewrite (calculate_walks _ _ _ _ H1 Hne) in Hrun.
    by rewrite (calculate_walks _ _ _ _ H2 Hne).
Qed.

Lemma order_and_repetition_do_not_matter_witness :
  calculate_weekly_streak 5 [workout_at 0; workout_at (-604800); workout_at 0]
    (quiet_world day_1970_01_01)
  = Some (Ok 2, tick (quiet_world day_1970_01_01)).
Proof.
  apply (order_and_repetition_do_not_matter 5
           [workout_at (-604800); workout_at 0]
           [workout_at 0; workout_at (-604800); workout_at 0]).
  - intros w. rewrite !elem_of_cons, !elem_of_nil. tauto.
  - vm_compute. reflexivity.
Defined.

(** ** More on the fetcher *)

Section FetcherFurther.

Variable float_to_timet : float -> result Z.

Local Abbreviation fetch_loop := (fetch_loop float_to_timet).
Local Abbreviation collect_dates := (collect_dates float_to_timet).
Local Abbreviation utcfromtimestamp_date := (utcfromtimestamp_date float_to_timet).

Implicit Types (w : World) (acc ws : list workout) (p q k : nat).

Lemma pages_tick w : pages (tick w) = pages w.
Proof. done. Qed.

(** The loop stops at the latest in the iteration for a page that is
    empty or not answered with 200. *)
Lemma fetch_loop_finishes fuel acc q w p :
  (q ≤ p)%nat → (p - q < fuel)%nat →
  status_code (pages w p) ≠ 200 ∨ data (pages w p) = [] →
  ∃ r w', fetch_loop fuel acc q w = Some (r, w').
Proof.
  revert acc q w. induction fuel as [|fuel IH]; intros acc q w Hq Hfuel Hstop;
    [lia|].
  rewrite fetch_loop_step.
  destruct (Z.eqb_spec (status_code (pages w q)) 200) as [Hstatus|Hstatus];
    simpl; [|by eexists _, _].
  destruct (data (pages w q)) as [|r rs] eqn:Hd; [by eexists _, _|].
  destruct (workout_dates float_to_timet _) as [dates|e]; [|by eexists _, _].
  destruct (gap_loop _ _ _) as [[|]|e]; [by eexists _, _| |by eexists _, _].
  destruct (decide (q = p)) as [->|Hne].
  { destruct Hstop as [Hstop|Hstop]; [done|]. by rewrite Hstop in Hd. }
  apply IH; [lia|lia|by rewrite pages_tick].
Qed.

Lemma collect_dates_each ws s0 s fields v :
  collect_dates ws s0 = Ok s →
  WDict fields ∈ ws → fields !! "start_time" = Some v →
  ∃ d, utcfromtimestamp_date v = Ok d.
Proof.
  revert s0. induction ws as [|x rest IH]; intros s0 Hrun Hin Hv.
  { by apply elem_of_nil in Hin. }
  simpl in Hrun. apply elem_of_cons in Hin as [<-|Hin].
  - rewrite Hv in Hrun.
    destruct (utcfromtimestamp_date v) as [d|e]; [by exists d|done].
  - destruct x as [fields'|]; [|by eapply IH].
    destruct (fields' !! "start_time") as [v'|]; [|by eapply IH].
    destruct (utcfromtimestamp_date v') as [d'|e]; [|done]. by eapply IH.
Qed.

Lemma collect_dates_Raise ws s0 e :
  collect_dates ws s0 = Raise e →
  ∃ fields v, WDict fields ∈ ws ∧ fields !! "start_time" = Some v ∧
              utcfromtimestamp_date v = Raise e.
Proof.
  revert s0. induction ws as [|x rest IH]; intros s0; simpl; [done|].
  intros Hrun.
  assert (∀ s1, collect_dates rest s1 = Raise e →
            ∃ fields v, WDict fields ∈ x :: rest ∧
                        fields !! "start_time" = Some v ∧
                        utcfromtimestamp_date v = Raise e) as Hrest.
  { intros s1 H1. apply IH in H1 as (fields & v & Hin & Hv & He).
    exists fields, v. split; [by apply list_elem_of_further|done]. }
  destruct x as [fields'|]; [|by eapply Hrest].
  destruct (fields' !! "start_time") as [v'|] eqn:Hv'; [|by eapply Hrest].
  destruct (utcfromtimestamp_date v') as [d'|e'] eqn:Hd'; simpl in Hrun;
    [by eapply Hrest|].
  injection Hrun as <-. exists fields', v'.
  split; [apply list_elem_of_here|done].
Qed.

Lemma utcfromtimestamp_date_number v d :
  utcfromtimestamp_date v = Ok d → is_number v.
Proof. by destruct v. Qed.

(** Every list the loop returns has gone through the set comprehension
    of lines 114-117 without an exception. *)
Lemma fetch_loop_checked fuel acc q w ws w' :
  (∃ s, collect_dates acc ∅ = Ok s) →
  fetch_loop fuel acc q w = Some (Ok ws, w') →
  ∃ s, collect_dates ws ∅ = Ok s.
Proof.
  revert acc q w. induction fuel as [|fuel IH]; intros acc q w Hacc; [done|].
  rewrite fetch_loop_step.
  destruct (negb _); [done|].
  destruct (data (pages w q)) as [|r rs] eqn:Hd; [by intros [= <- _]|].
  unfold workout_dates.
  destruct (collect_dates (acc ++ r :: rs) ∅) as [s|e] eqn:Hs; [|done]. simpl.
  destruct (gap_loop _ _ _) as [[|]|e]; [| |done].
  - intros [= <- _]. by exists s.
  - apply IH. by exists s.
Qed.

(** The loop's list is always a prefix of the listing. *)
Lemma fetch_loop_prefix fuel q w0 w ws w' :
  pages w = pages w0 →
  fetch_loop fuel (pages_upto w0 q) q w = Some (Ok ws, w') →
  ∃ p, (q ≤ p ≤ q + fuel)%nat ∧ ws = pages_upto w0 p.
Proof.
  revert q w. induction fuel as [|fuel IH]; intros q w Hpages; [done|].
  rewrite fetch_loop_step, Hpages.
  destruct (negb _); [done|].
  destruct (data (pages w0 q)) as [|r rs] eqn:Hd.
  { intros [= <- _]. exists q. split; [lia|done]. }
  rewrite <- Hd.
  change (pages_upto w0 q ++ data (pages w0 q)) with (pages_upto w0 (S q)).
  destruct (workout_dates float_to_timet _) as [dates|e]; [|done].
  destruct (gap_loop _ _ _) as [[|]|e]; [| |done].
  - intros [= <- _]. exists (S q). split; [lia|done].
  - intros Hrest. apply IH in Hrest as (p & Hp & ->); [|done].
    exists p. split; [lia|done].
Qed.

Lemma elem_of_pages_upto w k (x : workout) :
  x ∈ pages_upto w k ↔ ∃ p, (p < k)%nat ∧ x ∈ data (pages w p).
Proof.
  induction k as [|k IH]; simpl.
  - split; [intros H; by apply elem_of_nil in H|intros (p & ? & _); lia].
  - rewrite elem_of_app, IH. split.
    + intros [(p & Hp & Hx)|Hx]; [exists p|exists k]; (split; [lia|done]).
    + intros (p & Hp & Hx). destruct (decide (p = k)) as [->|]; [by right|].
      left. exists p. split; [lia|done].
Qed.

Lemma pages_upto_mono w k1 k2 :
  (k1 ≤ k2)%nat → pages_upto w k1 ⊆ pages_upto w k2.
Proof.
  intros Hk x. rewrite !elem_of_pages_upto.
  intros (p & Hp & Hx). exists p. split; [lia|done].
Qed.

(** What the loop can raise: the fetch failure of a page that was not
    answered with 200, or what [utcfromtimestamp] raises on the start time
    of some gathered record. *)
Lemma fetch_loop_raised fuel q w0 e w' :
  valid_clock w0 →
  fetch_loop fuel (pages_upto w0 q) q (ticks q w0) = Some (Raise e, w') →
  (∃ p, e = HTTPException 500 (fetch_failure_detail p) ∧
        status_code (pages w0 p) ≠ 200) ∨
  (∃ p fields v, WDict fields ∈ data (pages w0 p) ∧
                 fields !! "start_time" = Some v ∧
                 utcfromtimestamp_date v = Raise e).
Proof.
  intros Hclock. revert q. induction fuel as [|fuel IH]; intros q; [done|].
  rewrite fetch_loop_at.
  destruct (Z.eqb_spec (status_code (pages w0 q)) 200) as [Hstatus|Hstatus];
    simpl.
  2: { intros [= <- _]. left. by exists q. }
  destruct (data (pages w0 q)) as [|r rs] eqn:Hd; [done|]. rewrite <- Hd.
  change (pages_upto w0 q ++ data (pages w0 q)) with (pages_upto w0 (S q)).
  destruct (workout_dates float_to_timet (pages_upto w0 (S q))) as [dates|e'] eqn:Hdates.
  - destruct (gap_loop_decided float_to_timet _ _ (today_at w0 q)
                (valid_today_at w0 q Hclock) Hdates) as [gap ->].
    destruct gap; [done|]. apply IH.
  - intros [= <- _]. right. unfold workout_dates in Hdates.
    destruct (collect_dates (pages_upto w0 (S q)) ∅) as [s|e''] eqn:Hs;
      [done|]. injection Hdates as ->.
    apply collect_dates_Raise in Hs as (fields & v & Hin & Hv & He).
    apply elem_of_pages_upto in Hin as (p & _ & Hin). by exists p, fields, v.
Qed.

End FetcherFurther.

(** The calculator on a sub-collection, for use with prefixes of the
    listing. *)
Lemma streak_of_part_le fuel (part whole : list workout) world world' t :
  part ⊆ whole →
  calculate_weekly_streak fuel whole world = Some (Ok t, world') →
  ∃ s world'',
    calculate_weekly_streak fuel part world = Some (Ok s, world'') ∧ s ≤ t.
Proof.
  intros Hsub Hwhole.
  destruct (collect_weeks whole ∅) as [weeksT|e] eqn:HwT;
    [|by rewrite (calculate_raises _ _ _ _ HwT) in Hwhole].
  destruct (proj2 (collect_weeks_is_Ok part ∅)) as [weeksS HwS].
  { intros w Hw. apply (proj1 (collect_weeks_is_Ok whole ∅)); [by eauto|].
    by apply Hsub. }
  destruct (decide (weeksS = ∅)) as [->|HneS].
  { exists 0, world. split; [by apply calculate_no_weeks|].
    by eapply calculate_weekly_streak_nonneg. }
  assert (∀ yw, yw ∈ weeksS → yw ∈ weeksT) as Hweeks.
  { intros yw. rewrite (collect_weeks_has _ _ _ HwS), (collect_weeks_has _ _ _ HwT).
    intros (w & Hw & Hyw). exists w. split; [by apply Hsub|done]. }
  assert (weeksT ≠ ∅) as HneT.
  { intros ->. apply HneS. apply set_eq. intros yw.
    split; [apply Hweeks|]. intros Hin. by apply not_elem_of_empty in Hin. }
  rewrite (calculate_walks _ _ _ _ HwT HneT) in Hwhole.
  rewrite (calculate_walks _ _ _ _ HwS HneS).
  destruct (streak_loop fuel weeksT _ 0) as [r|] eqn:HrunT; [|done].
  injection Hwhole as <- <-.
  apply streak_loop_Some in HrunT as (nT & HfT & -> & HallT & HstopT).
  destruct (streak_loop_total weeksS (iso_week (next_today world)))
    as (nS & _ & HallS & _ & HrunS).
  assert (nS ≤ nT)%nat as Hle.
  { destruct (Nat.le_gt_cases nS nT) as [?|Hgt]; [done|].
    exfalso. apply HstopT, Hweeks. by apply HallS. }
  exists (0 + Z.of_nat nS), (tick world).
  rewrite (HrunS fuel 0) by lia. split; [done|lia].
Qed.

(** X10.  The fetcher finishes at the latest with the first page that is
    empty or not answered with status 200: if page [p] is such a page,
    every run allowed more than [p] requests ends, with a list or an
    exception. *)
Theorem fetch_finishes_by_first_empty_or_failed_page
    (float_to_timet : float -> result Z) (world : World) (p fuel : nat) :
  status_code (pages world p) ≠ 200 ∨ data (pages world p) = [] →
  (p < fuel)%nat →
  ∃ r world', fetch_workouts_for_streak float_to_timet fuel world = Some (r, world').
Proof.
  intros Hstop Hfuel. unfold fetch_workouts_for_streak.
  apply (fetch_loop_finishes float_to_timet fuel [] 0 world p); [lia|lia|done].
Qed.

Lemma fetch_finishes_by_first_empty_or_failed_page_witness :
  ∃ r world', fetch_workouts_for_streak no_floats 4 three_pages = Some (r, world').
Proof.
  apply (fetch_finishes_by_first_empty_or_failed_page no_floats three_pages 3 4).
  - right. reflexivity.
  - lia.
Defined.

(** X11.  In every list the fetcher returns, a record that is a [dict]
    with a start time has a number there, and that number converts to a
    date of the years 1..9999. *)
Theorem fetched_start_times_are_dates
    (float_to_timet : float -> result Z) (fuel : nat) (world world' : World)
    (ws : list workout) (fields : gmap string pyval) (v : pyval) :
  fetch_workouts_for_streak float_to_timet fuel world = Some (Ok ws, world') →
  WDict fields ∈ ws →
  fields !! "start_time" = Some v →
  is_number v ∧
  ∃ d, utcfromtimestamp_date float_to_timet v = Ok d ∧ valid_date d.
Proof.
  intros Hrun Hin Hv.
  destruct (fetch_loop_checked float_to_timet fuel [] 0 world ws world')
    as [s Hs]; [by exists ∅|done|].
  destruct (collect_dates_each float_to_timet _ _ _ _ _ Hs Hin Hv) as [d Hd].
  split; [by apply (utcfromtimestamp_date_number float_to_timet v d)|].
  exists d. split; [done|].
  by apply (utcfromtimestamp_date_valid float_to_timet v).
Qed.

Lemma fetched_start_times_are_dates_witness :
  is_number (VInt (midnight (day_2026_11_04 - 1))) ∧
  ∃ d, utcfromtimestamp_date no_floats (VInt (midnight (day_2026_11_04 - 1)))
       = Ok d ∧ valid_date d.
Proof.
  apply (fetched_start_times_are_dates no_floats 2 yesterday_only
           (tick yesterday_only)
           [workout_at (midnight (day_2026_11_04 - 1))]
           {[ "start_time" := VInt (midnight (day_2026_11_04 - 1)) ]}).
  - vm_compute. reflexivity.
  - apply list_elem_of_here.
  - reflexivity.
Defined.

(** X12.  When every request is answered and every answer with status
    200 carries a JSON object whose ["data"], if present, is a list
    (which is all a [response] can express), and the clock shows dates,
    the only
    exceptions the fetcher raises are the fetch failure (status 500) that
    names a page not answered with 200, and whatever [utcfromtimestamp]
    raises on the start time of some record of the listing. *)
Theorem fetch_raises_only_fetch_failures_and_conversion_errors
    (float_to_timet : float -> result Z) (fuel : nat) (world world' : World)
    (e : exn) :
  valid_clock world →
  fetch_workouts_for_streak float_to_timet fuel world = Some (Raise e, world') →
  (∃ p, e = HTTPException 500 (fetch_failure_detail p) ∧
        status_code (pages world p) ≠ 200) ∨
  (∃ p fields v, WDict fields ∈ data (pages world p) ∧
                 fields !! "start_time" = Some v ∧
                 utcfromtimestamp_date float_to_timet v = Raise e).
Proof.
  intros Hclock Hrun.
  by apply (fetch_loop_raised float_to_timet fuel 0 world e world' Hclock).
Qed.

Lemma fetch_raises_only_fetch_failures_and_conversion_errors_witness :
  (∃ p, HTTPException 500 (fetch_failure_detail 1)
        = HTTPException 500 (fetch_failure_detail p) ∧
        status_code (pages failing_second_page p) ≠ 200) ∨
  (∃ p fields v, WDict fields ∈ data (pages failing_second_page p) ∧
                 fields !! "start_time" = Some v ∧
                 utcfromtimestamp_date no_floats v
                 = Raise (HTTPException 500 (fetch_failure_detail 1))).
Proof.
  apply (fetch_raises_only_fetch_failures_and_conversion_errors no_floats 3
           failing_second_page (ticks 1 failing_second_page)).
  - apply world_on_valid, day_2026_11_04_valid.
  - vm_compute. reflexivity.
Defined.

(** X13.  When the most recent start date on page 0 is not today's UTC
    date, the fetcher returns the records of page 0 and nothing else,
    after one request and one reading of the clock, whatever the later
    pages hold. *)
Theorem no_workout_today_returns_first_page
    (float_to_timet : float -> result Z) (fuel : nat) (world : World)
    (dates : list Z) (d : Z) :
  (0 < fuel)%nat →
  valid_date (next_today world) →
  status_code (pages world 0) = 200 →
  workout_dates float_to_timet (data (pages world 0)) = Ok dates →
  dates !! 0%nat = Some d →
  d ≠ next_today world →
  fetch_workouts_for_streak float_to_timet fuel world
  = Some (Ok (data (pages world 0)), tick world).
Proof.
  intros Hfuel Htoday Hstatus Hdates Hd Hne.
  destruct fuel as [|fuel]; [lia|]. unfold fetch_workouts_for_streak.
  rewrite fetch_loop_step, Hstatus. simpl.
  destruct (data (pages world 0)) as [|r rs] eqn:Hdata.
  { vm_compute in Hdates. injection Hdates as <-. done. }
  rewrite Hdates. destruct dates as [|d0 rest]; [done|].
  injection Hd as ->. simpl.
  rewrite (sub_days_ok (next_today world) 0 Htoday)
    by (unfold valid_date in Htoday; lia).
  simpl. rewrite Z.sub_0_r.
  by destruct (Z.eqb_spec d (next_today world)).
Qed.

Lemma no_workout_today_returns_first_page_witness :
  fetch_workouts_for_streak no_floats 1 yesterday_only
  = Some (Ok (data (pages yesterday_only 0)), tick yesterday_only).
Proof.
  apply (no_workout_today_returns_first_page no_floats 1 yesterday_only
           [day_2026_11_04 - 1] (day_2026_11_04 - 1)).
  - lia.
  - apply day_2026_11_04_valid.
  - reflexivity.
  - vm_compute. reflexivity.
  - reflexivity.
  - discriminate.
Defined.

(** X14.  The list the fetcher returns is a prefix of the listing (the
    records of pages [0 .. p - 1] for some [p] within the request
    bound), so stopping early can only lower the streak: whenever the
    calculator returns a streak for a longer prefix, it returns one for
    the fetched list, and that one is no larger. *)
Theorem early_stop_never_overcounts
    (float_to_timet : float -> result Z) (fuel : nat) (world world1 : World)
    (ws : list workout) :
  fetch_workouts_for_streak float_to_timet fuel world = Some (Ok ws, world1) →
  ∃ p, (p ≤ fuel)%nat ∧ ws = pages_upto world p ∧
       ∀ (k fuel' : nat) (w w' : World) (t : Z),
         (p ≤ k)%nat →
         calculate_weekly_streak fuel' (pages_upto world k) w = Some (Ok t, w') →
         ∃ s w'', calculate_weekly_streak fuel' ws w = Some (Ok s, w'') ∧ s ≤ t.
Proof.
  intros Hrun.
  destruct (fetch_loop_prefix float_to_timet fuel 0 world world ws world1)
    as (p & Hp & ->); [done|done|].
  exists p. split; [lia|]. split; [done|].
  intros k fuel' w w' t Hk Hcalc.
  by apply (streak_of_part_le fuel' _ (pages_upto world k) w w' t
              (pages_upto_mono world p k Hk)).
Qed.

Lemma early_stop_never_overcounts_witness :
  ∃ p, (p ≤ 10)%nat ∧ pages_upto three_pages 2 = pages_upto three_pages p ∧
       ∀ (k fuel' : nat) (w w' : World) (t : Z),
         (p ≤ k)%nat →
         calculate_weekly_streak fuel' (pages_upto three_pages k) w
         = Some (Ok t, w') →
         ∃ s w'', calculate_weekly_streak fuel' (pages_upto three_pages 2) w
                  = Some (Ok s, w'') ∧ s ≤ t.
Proof.
  apply (early_stop_never_overcounts no_floats 10 three_pages
           (ticks 2 three_pages)).
  vm_compute. reflexivity.
Defined.

(** ** More on the streak bar *)

Lemma string_length_app (s1 s2 : string) :
  String.length (s1 +:+ s2) = (String.length s1 + String.length s2)%nat.
Proof.
  induction s1 as [|a s1 IH]; [done|].
  change (String a s1 +:+ s2) with (String a (s1 +:+ s2)).
  simpl. by rewrite IH.
Qed.

Lemma str_repeat_length (s : string) (n : nat) :
  String.length (str_repeat s n) = (n * String.length s)%nat.
Proof.
  induction n as [|n IH]; [done|].
  change (str_repeat s (S n)) with (s +:+ str_repeat s n).
  rewrite string_length_app, IH. lia.
Qed.

(** X15.  For a fixed maximum width the bar tells the streak: two
    non-negative streaks that render to the same string are equal. *)
Theorem streak_bar_determines_streak (s s' m : Z) :
  0 ≤ s → 0 ≤ s' →
  generate_streak_bar s m = generate_streak_bar s' m →
  s = s'.
Proof.
  intros Hs Hs'. unfold generate_streak_bar, str_mul.
  destruct (Z.leb_spec s m) as [Hle|Hgt];
  destruct (Z.leb_spec s' m) as [Hle'|Hgt']; intros Hbar.
  - apply (f_equal String.length) in Hbar.
    rewrite !str_repeat_length in Hbar. simpl in Hbar. lia.
  - apply (f_equal String.length) in Hbar.
    rewrite !string_length_app, !str_repeat_length in Hbar.
    simpl in Hbar. lia.
  - apply (f_equal String.length) in Hbar.
    rewrite !string_length_app, !str_repeat_length in Hbar.
    simpl in Hbar. lia.
  - apply (inj (String.app _)) in Hbar.
    apply (inj (String.app _)) in Hbar.
    apply (inj pretty) in Hbar. lia.
Qed.

Lemma streak_bar_determines_streak_witness : 25 = 25.
Proof.
  apply (streak_bar_determines_streak 25 25 20); [lia|lia|reflexivity].
Defined.

(** ** The request handler *)

Section HandlerRuns.

Variable float_to_timet : float -> result Z.
Variable gt_other : nat -> pyval -> pyval -> hresult bool.
Variable exn_str : hexn -> string.

Local Abbreviation max_loop := (max_loop gt_other).
Local Abbreviation max_by_start_time := (max_by_start_time gt_other).
Local Abbreviation peloton_summary :=
  (peloton_summary float_to_timet gt_other exn_str).

Implicit Types (w item : workout) (ws rest : list workout) (v : pyval).

(** [max] returns one of the items, and only after the key function has
    succeeded on every item. *)
Lemma max_loop_HOk i rest item val w :
  max_loop i rest item val = HOk w →
  (w = item ∨ w ∈ rest) ∧
  Forall (λ x, ∃ v, start_time_of x = HOk v) rest.
Proof.
  revert i item val. induction rest as [|x rest IH]; intros i item val; simpl.
  - intros [= <-]. split; [by left|constructor].
  - destruct (start_time_of x) as [vx|e] eqn:Hx; [|done]. simpl.
    destruct (py_gt gt_other i vx val) as [[|]|e]; [| |done]; simpl;
      intros Hrest; apply IH in Hrest as [Hw Hall];
      (split; [|constructor; [by exists vx|done]]).
    + destruct Hw as [->|Hw]; right;
        [apply list_elem_of_here|by apply list_elem_of_further].
    + destruct Hw as [->|Hw]; [by left|right; by apply list_elem_of_further].
Qed.

Lemma max_by_start_time_HOk ws w :
  max_by_start_time ws = HOk w →
  w ∈ ws ∧ Forall (λ x, ∃ v, start_time_of x = HOk v) ws.
Proof.
  destruct ws as [|item rest]; [done|]. simpl.
  destruct (start_time_of item) as [val|e] eqn:Hitem; [|done]. simpl.
  intros Hmax. apply max_loop_HOk in Hmax as [Hw Hall]. split.
  - destruct Hw as [->|Hw];
      [apply list_elem_of_here|by apply list_elem_of_further].
  - constructor; [by exists val|done].
Qed.

(** On integer start times [max] finds the largest. *)
Lemma max_loop_ints i rest item val (m : Z) w :
  as_int val = Some m → int_start_time item = Some m →
  Forall (λ x, is_Some (int_start_time x)) rest →
  max_loop i rest item val = HOk w →
  ∃ z, int_start_time w = Some z ∧ m ≤ z ∧
       ∀ x y, x ∈ rest → int_start_time x = Some y → y ≤ z.
Proof.
  revert i item val m. induction rest as [|x rest IH];
    intros i item val m Hval Hitem Hall; simpl.
  - intros [= <-]. exists m. split; [done|]. split; [lia|].
    intros x y Hx. by apply elem_of_nil in Hx.
  - apply Forall_cons in Hall as [[y Hy] Hall].
    unfold int_start_time in Hy.
    destruct (start_time_of x) as [vx|e] eqn:Hx; [|done]. simpl.
    unfold py_gt. rewrite Hy, Hval. simpl.
    destruct (Z.ltb_spec m y) as [Hlt|Hge]; intros Hrest.
    + apply (IH _ _ _ y) in Hrest as (z & Hz & Hyz & Hmax);
        [|done|by unfold int_start_time; rewrite Hx|done].
      exists z. split; [done|]. split; [lia|].
      intros x' y' Hx' Hy'. apply elem_of_cons in Hx' as [->|Hx'].
      * unfold int_start_time in Hy'. rewrite Hx, Hy in Hy'.
        injection Hy' as <-. done.
      * by eapply Hmax.
    + apply (IH _ _ _ m) in Hrest as (z & Hz & Hmz & Hmax); [|done..].
      exists z. split; [done|]. split; [done|].
      intros x' y' Hx' Hy'. apply elem_of_cons in Hx' as [->|Hx'].
      * unfold int_start_time in Hy'. rewrite Hx, Hy in Hy'.
        injection Hy' as <-. lia.
      * by eapply Hmax.
Qed.

Lemma max_by_start_time_ints ws w :
  Forall (λ x, is_Some (int_start_time x)) ws →
  max_by_start_time ws = HOk w →
  ∃ z, int_start_time w = Some z ∧
       ∀ x y, x ∈ ws → int_start_time x = Some y → y ≤ z.
Proof.
  destruct ws as [|item rest]; [done|]. simpl.
  intros Hall. apply Forall_cons in Hall as [[m Hm] Hall].
  pose proof Hm as Hm'. unfold int_start_time in Hm'.
  destruct (start_time_of item) as [val|e] eqn:Hitem; [|done]. simpl.
  intros Hmax.
  apply (max_loop_ints _ _ _ _ m) in Hmax as (z & Hz & Hmz & Hmax); [|done..].
  exists z. split; [done|].
  intros x y Hx Hy. apply elem_of_cons in Hx as [->|Hx].
  - rewrite Hm in Hy. injection Hy as <-. done.
  - by eapply Hmax.
Qed.

(** What a successful run of the [try] block went through. *)
Lemma summary_body_HOk remote fuel creds world summary world' :
  summary_body float_to_timet gt_other remote fuel creds world
  = Some (HOk summary, world') →
  str_is_empty (username creds) = false ∧
  str_is_empty (password creds) = false ∧
  login_status remote (username creds) (password creds) = 200 ∧
  me_status remote = 200 ∧ (∃ user_id, me_id remote = HOk user_id) ∧
  profile_status remote = 200 ∧
  profile_total_workouts remote = HOk (total_activities summary) ∧
  total_activities summary ≠ VNone ∧
  ∃ ws world1 last ts day,
    fetch_workouts_for_streak float_to_timet fuel world = Some (Ok ws, world1) ∧
    calculate_weekly_streak fuel ws world1
    = Some (Ok (weekly_streak summary), world') ∧
    streak_bar summary
    = generate_streak_bar (weekly_streak summary) default_max_units ∧
    max_by_start_time ws = HOk last ∧
    start_time_of last = HOk ts ∧
    utcfromtimestamp_date float_to_timet ts = Ok day ∧
    last_workout_date summary = strftime_ymd day.
Proof.
  unfold summary_body, peloton_login.
  destruct (str_is_empty (username creds)); [done|].
  destruct (str_is_empty (password creds)); [done|]. simpl.
  destruct (Z.eqb_spec (login_status remote (username creds) (password creds)) 200)
    as [Hlogin|?]; [|done]. simpl.
  unfold hbind at 1. unfold hret at 1.
  destruct (Z.eqb_spec (me_status remote) 200) as [Hme|?]; [|done]. simpl.
  unfold hbind at 1. unfold hlift at 1.
  destruct (me_id remote) as [user_id|e] eqn:Hid; [|done].
  destruct (Z.eqb_spec (profile_status remote) 200) as [Hprofile|?]; [|done].
  simpl. unfold hbind at 1. unfold hlift at 1.
  destruct (profile_total_workouts remote) as [total|e] eqn:Htotal; [|done].
  assert (total ≠ VNone →
    (hdo workouts := call (fetch_workouts_for_streak float_to_timet fuel) in
     hdo weekly_streak := call (calculate_weekly_streak fuel workouts) in
     let streak_bar := generate_streak_bar weekly_streak default_max_units in
     hdo last_workout := hlift (max_by_start_time workouts) in
     hdo ts := hlift (start_time_of last_workout) in
     hdo last_day := hlift (of_core (utcfromtimestamp_date float_to_timet ts)) in
     hret {| total_activities := total;
             weekly_streak := weekly_streak;
             last_workout_date := strftime_ymd last_day;
             streak_bar := streak_bar |}) world = Some (HOk summary, world') →
    false = false ∧ false = false ∧
    login_status remote (username creds) (password creds) = 200 ∧
    me_status remote = 200 ∧ (∃ user_id0, HOk user_id = HOk user_id0) ∧
    profile_status remote = 200 ∧
    HOk total = HOk (total_activities summary) ∧
    total_activities summary ≠ VNone ∧
    ∃ ws world1 last ts day,
      fetch_workouts_for_streak float_to_timet fuel world = Some (Ok ws, world1) ∧
      calculate_weekly_streak fuel ws world1
      = Some (Ok (weekly_streak summary), world') ∧
      streak_bar summary
      = generate_streak_bar (weekly_streak summary) default_max_units ∧
      max_by_start_time ws = HOk last ∧
      start_time_of last = HOk ts ∧
      utcfromtimestamp_date float_to_timet ts = Ok day ∧
      last_workout_date summary = strftime_ymd day) as Hrest.
  { intros Hnone. unfold hbind at 1. unfold call at 1.
    destruct (fetch_workouts_for_streak float_to_timet fuel world)
      as [[[ws|e] world1]|] eqn:Hfetch; [|done..]. simpl.
    unfold hbind at 1. unfold call at 1.
    destruct (calculate_weekly_streak fuel ws world1)
      as [[[streak|e] world2]|] eqn:Hcalc; [|done..]. simpl.
    unfold hbind at 1. unfold hlift at 1.
    destruct (max_by_start_time ws) as [last|e] eqn:Hmax; [|done].
    unfold hbind at 1. unfold hlift at 1.
    destruct (start_time_of last) as [ts|e] eqn:Hts; [|done].
    unfold hbind at 1. unfold hlift at 1.
    destruct (utcfromtimestamp_date float_to_timet ts) as [day|e] eqn:Hday;
      [|done]. simpl. unfold hret.
    intros [= <- <-]. simpl. repeat (split; [by eauto|]).
    by exists ws, world1, last, ts, day. }
  destruct total; try (apply Hrest; done). done.
Qed.

End HandlerRuns.

Lemma utcfromtimestamp_date_int float_to_timet v z :
  as_int v = Some z →
  utcfromtimestamp_date float_to_timet v = datetime.date_of_timet z.
Proof. destruct v; simpl; try done; by intros [= <-]. Qed.

Lemma start_time_of_HOk w v :
  start_time_of w = HOk v →
  ∃ fields, w = WDict fields ∧ fields !! "start_time" = Some v.
Proof.
  destruct w as [fields|]; simpl; [|done].
  destruct (fields !! "start_time") as [v'|] eqn:Hv; [|done].
  intros [= <-]. by exists fields.
Qed.

Lemma peloton_summary_Ok float_to_timet gt_other exn_str remote fuel creds
    world summary world' :
  peloton_summary float_to_timet gt_other exn_str remote fuel creds world
  = Some (Ok summary, world') →
  summary_body float_to_timet gt_other remote fuel creds world
  = Some (HOk summary, world').
Proof.
  unfold peloton_summary.
  destruct (summary_body _ _ _ _ _ _) as [[[s0|e] w0]|]; [|done..].
  by intros [= <- <-].
Qed.

(** X16.  Empty credentials never reach the client as the status 400
    raised for them: the handler's own [except] clause catches that
    exception and raises status 500 with the text of the caught exception
    in its detail.  Neither the clock nor the listing is touched. *)
Theorem missing_credentials_become_status_500
    (float_to_timet : float -> result Z)
    (gt_other : nat -> pyval -> pyval -> hresult bool)
    (exn_str : hexn -> string)
    (remote : Remote) (fuel : nat) (creds : Credentials) (world : World) :
  username creds = "" ∨ password creds = "" →
  peloton_summary float_to_timet gt_other exn_str remote fuel creds world
  = Some (Raise (HTTPException 500
                   ("Internal Server Error: "
                    +:+ exn_str (Core (HTTPException 400 "Missing credentials")))),
          world).
Proof.
  intros Hempty. unfold peloton_summary, summary_body.
  destruct Hempty as [-> | ->]; [done|].
  by destruct (str_is_empty (username creds)).
Qed.

Lemma missing_credentials_become_status_500_witness :
  peloton_summary no_floats no_other_gt kind_of_exn good_remote 5
    {| username := "rider"; password := "" |} three_pages
  = Some (Raise (HTTPException 500
                   ("Internal Server Error: "
                    +:+ kind_of_exn (Core (HTTPException 400 "Missing credentials")))),
          three_pages).
Proof.
  apply (missing_credentials_become_status_500 no_floats no_other_gt kind_of_exn
           good_remote 5 {| username := "rider"; password := "" |} three_pages).
  right. reflexivity.
Defined.

(** X17.  A user without any workout gets an error, not a streak of 0:
    when every request succeeds and page 0 of the listing is empty, the
    calculator returns 0 but [max] on line 164 raises [ValueError] on the
    empty list, and the handler raises status 500. *)
Theorem empty_history_is_an_error
    (float_to_timet : float -> result Z)
    (gt_other : nat -> pyval -> pyval -> hresult bool)
    (exn_str : hexn -> string)
    (remote : Remote) (fuel : nat) (creds : Credentials) (world : World)
    (user_id total : pyval) :
  username creds ≠ "" → password creds ≠ "" →
  login_status remote (username creds) (password creds) = 200 →
  me_status remote = 200 → me_id remote = HOk user_id →
  profile_status remote = 200 →
  profile_total_workouts remote = HOk total → total ≠ VNone →
  status_code (pages world 0) = 200 → data (pages world 0) = [] →
  (0 < fuel)%nat →
  peloton_summary float_to_timet gt_other exn_str remote fuel creds world
  = Some (Raise (HTTPException 500
                   ("Internal Server Error: " +:+ exn_str (Core ValueError))),
          world).
Proof.
  intros Hu Hp Hlogin Hme Hid Hprofile Htotal Hnone Hstatus Hdata Hfuel.
  unfold peloton_summary, summary_body, peloton_login.
  destruct (username creds) as [|a u]; [done|].
  destruct (password creds) as [|b p]; [done|]. simpl.
  rewrite Hlogin. simpl. unfold hbind at 1. unfold hret at 1.
  rewrite Hme. simpl. unfold hbind at 1. unfold hlift at 1. rewrite Hid.
  rewrite Hprofile. simpl. unfold hbind at 1. unfold hlift at 1. rewrite Htotal.
  assert (fetch_workouts_for_streak float_to_timet fuel world
          = Some (Ok [], world)) as Hfetch.
  { destruct fuel as [|fuel]; [lia|]. unfold fetch_workouts_for_streak.
    by rewrite fetch_loop_step, Hstatus, Hdata. }
  assert (calculate_weekly_streak fuel [] world = Some (Ok 0, world)) as Hcalc
    by by apply calculate_no_weeks.
  destruct total; try done;
    unfold hbind at 1; unfold call at 1; rewrite Hfetch; simpl;
    unfold hbind at 1; unfold call at 1; rewrite Hcalc; done.
Qed.

Lemma empty_history_is_an_error_witness :
  peloton_summary no_floats no_other_gt kind_of_exn good_remote 5
    some_credentials (quiet_world day_2026_11_04)
  = Some (Raise (HTTPException 500
                   ("Internal Server Error: " +:+ kind_of_exn (Core ValueError))),
          quiet_world day_2026_11_04).
Proof.
  apply (empty_history_is_an_error no_floats no_other_gt kind_of_exn
           good_remote 5 some_credentials (quiet_world day_2026_11_04)
           (VStr "user-1") (VInt 42)); try reflexivity; try discriminate.
  lia.
Defined.

(** A full run of the handler on the three-page listing: the fetcher
    stops after the second page, three consecutive weeks hold a record. *)
Example summary_of_three_pages :
  fst <$> peloton_summary no_floats no_other_gt kind_of_exn good_remote 10
            some_credentials three_pages
  = Some (Ok {| total_activities := VInt 42;
                weekly_streak := 3;
                last_workout_date := "2026-11-04";
                streak_bar := "●●●" |}).
Proof. vm_compute. reflexivity. Qed.

(** X18.  When the handler returns a summary, the fetcher returned a
    non-empty list in which every record is a [dict] with a number as
    start time; the reported weekly streak is what the calculator returns
    on that list and is not negative; the bar is the rendering of that
    streak with the default width; and the activity total is the value
    found in the profile, which is not [None]. *)
Theorem summary_reports_fetched_streak
    (float_to_timet : float -> result Z)
    (gt_other : nat -> pyval -> pyval -> hresult bool)
    (exn_str : hexn -> string)
    (remote : Remote) (fuel : nat) (creds : Credentials)
    (world world' : World) (summary : Summary) :
  peloton_summary float_to_timet gt_other exn_str remote fuel creds world
  = Some (Ok summary, world') →
  ∃ ws world1,
    fetch_workouts_for_streak float_to_timet fuel world = Some (Ok ws, world1) ∧
    ws ≠ [] ∧
    Forall (λ x, ∃ fields v, x = WDict fields ∧
                             fields !! "start_time" = Some v ∧ is_number v) ws ∧
    calculate_weekly_streak fuel ws world1
    = Some (Ok (weekly_streak summary), world') ∧
    0 ≤ weekly_streak summary ∧
    streak_bar summary
    = generate_streak_bar (weekly_streak summary) default_max_units ∧
    profile_total_workouts remote = HOk (total_activities summary) ∧
    total_activities summary ≠ VNone.
Proof.
  intros Hrun. apply peloton_summary_Ok, summary_body_HOk in Hrun
    as (_ & _ & _ & _ & _ & _ & Htotal & Hnone
        & ws & world1 & last & ts & day & Hfetch & Hcalc & Hbar & Hmax & _).
  exists ws, world1. split; [done|].
  apply max_by_start_time_HOk in Hmax as [Hlast Hkeys].
  split; [intros ->; by apply elem_of_nil in Hlast|].
  split.
  { apply Forall_forall. intros x Hx.
    destruct (proj1 (Forall_forall _ _) Hkeys x Hx) as [v Hv].
    apply start_time_of_HOk in Hv as (fields & -> & Hv).
    exists fields, v. split; [done|]. split; [done|].
    destruct (fetch_loop_checked float_to_timet fuel [] 0 world ws world1)
      as [s Hs]; [by exists ∅|done|].
    destruct (collect_dates_each float_to_timet _ _ _ _ _ Hs Hx Hv) as [d Hd].
    by apply (utcfromtimestamp_date_number float_to_timet v d). }
  split; [done|].
  split; [by eapply calculate_weekly_streak_nonneg|]. done.
Qed.

Lemma summary_reports_fetched_streak_witness :
  ∃ ws world1,
    fetch_workouts_for_streak no_floats 10 three_pages = Some (Ok ws, world1) ∧
    ws ≠ [] ∧
    Forall (λ x, ∃ fields v, x = WDict fields ∧
                             fields !! "start_time" = Some v ∧ is_number v) ws ∧
    calculate_weekly_streak 10 ws world1 = Some (Ok 3, ticks 3 three_pages) ∧
    0 ≤ 3 ∧
    "●●●" = generate_streak_bar 3 default_max_units ∧
    profile_total_workouts good_remote = HOk (VInt 42) ∧
    VInt 42 ≠ VNone.
Proof.
  apply (summary_reports_fetched_streak no_floats no_other_gt kind_of_exn
           good_remote 10 some_credentials three_pages (ticks 3 three_pages)
           {| total_activities := VInt 42;
              weekly_streak := 3;
              last_workout_date := "2026-11-04";
              streak_bar := "●●●" |}).
  vm_compute. reflexivity.
Defined.

(** X19.  When the handler returns a summary and all fetched start times
    are integers, the reported last workout date is the UTC date, written
    year-month-day, of the largest start time among the fetched records. *)
Theorem last_workout_date_is_latest_start
    (float_to_timet : float -> result Z)
    (gt_other : nat -> pyval -> pyval -> hresult bool)
    (exn_str : hexn -> string)
    (remote : Remote) (fuel : nat) (creds : Credentials)
    (world world1 world' : World) (summary : Summary) (ws : list workout) :
  peloton_summary float_to_timet gt_other exn_str remote fuel creds world
  = Some (Ok summary, world') →
  fetch_workouts_for_streak float_to_timet fuel world = Some (Ok ws, world1) →
  Forall (λ x, is_Some (int_start_time x)) ws →
  ∃ z day,
    (∃ x, x ∈ ws ∧ int_start_time x = Some z) ∧
    (∀ x y, x ∈ ws → int_start_time x = Some y → y ≤ z) ∧
    datetime.date_of_timet z = Ok day ∧
    last_workout_date summary = strftime_ymd day.
Proof.
  intros Hrun Hfetch Hints. apply peloton_summary_Ok, summary_body_HOk in Hrun
    as (_ & _ & _ & _ & _ & _ & _ & _
        & ws' & world1' & last & ts & day & Hfetch' & _ & _ & Hmax & Hts
        & Hday & Hdate).
  rewrite Hfetch in Hfetch'. injection Hfetch' as <- <-.
  pose proof (max_by_start_time_HOk gt_other _ _ Hmax) as [Hlast _].
  destruct (max_by_start_time_ints gt_other _ _ Hints Hmax) as (z & Hz & Hmaxz).
  exists z, day. split; [by exists last|]. split; [done|]. split; [|done].
  unfold int_start_time in Hz. rewrite Hts in Hz.
  by rewrite <- (utcfromtimestamp_date_int float_to_timet ts z Hz).
Qed.

Lemma last_workout_date_is_latest_start_witness :
  ∃ z day,
    (∃ x, x ∈ [workout_at (midnight (day_2026_11_04 - 1))]
          ∧ int_start_time x = Some z) ∧
    (∀ x y, x ∈ [workout_at (midnight (day_2026_11_04 - 1))] →
            int_start_time x = Some y → y ≤ z) ∧
    datetime.date_of_timet z = Ok day ∧
    "2026-11-03" = strftime_ymd day.
Proof.
  apply (last_workout_date_is_latest_start no_floats no_other_gt kind_of_exn
           good_remote 5 some_credentials yesterday_only (tick yesterday_only)
           (ticks 2 yesterday_only)
           {| total_activities := VInt 42;
              weekly_streak := 1;
              last_workout_date := "2026-11-03";
              streak_bar := "●" |}
           [workout_at (midnight (day_2026_11_04 - 1))]).
  - vm_compute. reflexivity.
  - vm_compute. reflexivity.
  - repeat constructor. by exists (midnight (day_2026_11_04 - 1)).
Defined.

(** The walk and the calendar agree on the weeks of the current ISO
    year. *)
Lemma back_is_week_of_earlier_day (d : Z) (k : nat) :
  Z.of_nat k < (iso_week d).2 →
  back k (iso_week d) = iso_week (d - 7 * Z.of_nat k).
Proof.
  destruct (iso_week d) as [y wk] eqn:Hd. simpl. intros Hk.
  rewrite back_within_year by done.
  apply iso_week_interval in Hd as (Hw & Hd & Hnext).
  symmetry. apply iso_week_of_interval; lia.
Qed.

(** The streak as the first weeks of the walk that hold a record. *)
Lemma calculate_walk fuel (workouts : list workout) world world' streak :
  calculate_weekly_streak fuel workouts world = Some (Ok streak, world') →
  ∃ n : nat,
    streak = Z.of_nat n ∧
    (∀ i : nat, (i < n)%nat →
       has_workout_in workouts (back i (iso_week (next_today world)))) ∧
    ¬ has_workout_in workouts (back n (iso_week (next_today world))).
Proof.
  destruct (collect_weeks workouts ∅) as [weeks|e] eqn:Hrun;
    [|by rewrite (calculate_raises _ _ _ _ Hrun)].
  destruct (decide (weeks = ∅)) as [->|Hne].
  - rewrite (calculate_no_weeks _ _ _ Hrun). intros [= <- _].
    exists 0%nat. split; [done|]. split; [intros; lia|].
    rewrite <- (collect_weeks_has _ _ _ Hrun). apply not_elem_of_empty.
  - rewrite (calculate_walks _ _ _ _ Hrun Hne).
    destruct (streak_loop _ _ _ _) as [r|] eqn:Hloop; [|done].
    intros [= <- _].
    apply streak_loop_Some in Hloop as (n & _ & -> & Hall & Hstop).
    exists n. split; [lia|]. split.
    + intros i Hi. apply (collect_weeks_has _ _ _ Hrun). by apply Hall.
    + by rewrite <- (collect_weeks_has _ _ _ Hrun).
Qed.

(** X20.  Within the current ISO year the streak is the calendar's: if
    the weeks of today, of today - 7, ..., of today - 7(n-1) each hold a
    record, the week of today - 7n holds none, and n is less than the
    current week number, then a returned streak is exactly n. *)
Theorem streak_is_run_of_calendar_weeks_within_year
    (fuel : nat) (workouts : list workout) (world world' : World)
    (streak : Z) (n : nat) :
  calculate_weekly_streak fuel workouts world = Some (Ok streak, world') →
  Z.of_nat n < (iso_week (next_today world)).2 →
  (∀ k : nat, (k < n)%nat →
     has_workout_in workouts (iso_week (next_today world - 7 * Z.of_nat k))) →
  ¬ has_workout_in workouts (iso_week (next_today world - 7 * Z.of_nat n)) →
  streak = Z.of_nat n.
Proof.
  intros Hrun Hn Hall Hstop.
  apply calculate_walk in Hrun as (n0 & -> & Hall0 & Hstop0).
  f_equal. destruct (Nat.lt_trichotomy n0 n) as [Hlt|[Heq|Hgt]]; [|done|].
  - exfalso. apply Hstop0.
    rewrite back_is_week_of_earlier_day by lia. by apply Hall.
  - exfalso. apply Hstop.
    rewrite <- back_is_week_of_earlier_day by lia. by apply Hall0.
Qed.

Lemma streak_is_run_of_calendar_weeks_within_year_witness :
  3 = Z.of_nat 3.
Proof.
  apply (streak_is_run_of_calendar_weeks_within_year 10
           (pages_upto three_pages 2) three_pages (tick three_pages) 3 3).
  - vm_compute. reflexivity.
  - vm_compute. reflexivity.
  - intros k Hk.
    assert (k = 0 ∨ k = 1 ∨ k = 2)%nat as Hcases by lia.
    destruct Hcases as [Hk0|[Hk0|Hk0]]; subst k.
    + exists (workout_at (midnight day_2026_11_04)).
      split; [apply list_elem_of_here|reflexivity].
    + exists (workout_at (midnight (day_2026_11_04 - 9))).
      split; [|reflexivity].
      do 9 apply list_elem_of_further. apply list_elem_of_here.
    + exists (workout_at (midnight (day_2026_11_04 - 11))).
      split; [|reflexivity].
      do 10 apply list_elem_of_further. apply list_elem_of_here.
  - intros (w & Hw & Hweek). revert Hweek.
    assert (Forall (λ x, workout_week x ≠ Ok (Some (2026, 42)))
              (pages_upto three_pages 2)) as Hnone by (repeat constructor; done).
    by apply (proj1 (Forall_forall _ _) Hnone).
Defined.
